(** * Mix analyzer service: the remote analysis client and its front end

    A shallow embedding of [mix_client.py] and of the [/analyze] handler of
    [analyze_service.py].

    - Python values that travel through the client (parsed JSON, dict
      values, tokens) are the inductive type [json]; Python's [None] is
      [JNull], a [dict] is a finite map from strings.  Insertion order of
      dicts is not tracked: the code only observes it through
      [json.dumps] and [repr], which are parameters here.
    - A Python [str] is the string of its UTF-8 bytes; [len] and slices
      count characters, that is the bytes that do not continue one.  A
      surrogate code point, which a [str] can hold (the JSON text
      "\ud800" decodes to one) and UTF-8 cannot encode, is kept as the
      three bytes its number would take (ED, then A0..BF, then one more).
    - The remote host, the network and the clock are one parameter, the
      [World]: a function from the history of requests and sleeps to the
      reply of the latest request and the time it took.  Cookies are the
      world's business: it sees every request of the session.  Time is
      counted in ticks, 1000 to the second, and passes only in requests
      and sleeps.
    - The client is written in a state-and-exception monad whose state
      holds that history, the wall clock, the session headers and the two
      dict objects [headers] and [data] of the upload, which
      [_post_with_optional_retry] receives by reference and updates in
      place.  Effects performed before an exception is raised stay. *)

From stdpp Require Import gmap strings pretty list fin_maps.
From Stdlib Require Import ZArith Strings.Byte Floats.SpecFloat.

#[local] Open Scope Z_scope.
#[local] Open Scope string_scope.

(** ** Python values *)

#[warnings="-register-all"]
Inductive json : Type :=
| JNull
| JBool (b : bool)
| JInt (z : Z)
| JFloat (f : spec_float)
| JStr (s : string)
| JArr (l : list json)
| JObj (m : gmap string json).

Abbreviation dict := (gmap string json).

(** Truth value of a Python object, as [if x:], [not x] and [x or y] use it. *)
Definition py_truthy (v : json) : bool :=
  match v with
  | JNull => false
  | JBool b => b
  | JInt z => negb (Z.eqb z 0)
  | JFloat (S754_zero _) => false
  | JFloat _ => true
  | JStr s => negb (Nat.eqb (String.length s) 0)
  | JArr l => negb (Nat.eqb (length l) 0)
  | JObj m => negb (Nat.eqb (size m) 0)
  end.

(** [type(v).__name__] *)
Definition type_name (v : json) : string :=
  match v with
  | JNull => "NoneType"
  | JBool _ => "bool"
  | JInt _ => "int"
  | JFloat _ => "float"
  | JStr _ => "str"
  | JArr _ => "list"
  | JObj _ => "dict"
  end.

(** A byte of the form 10xxxxxx: it continues the UTF-8 encoding of a
    character begun before it. *)
Definition continues_character (c : Ascii.ascii) : bool :=
  match c with
  | Ascii.Ascii _ _ _ _ _ _ b6 b7 => b7 && negb b6
  end.

(** [len(s)]: the number of characters of [s]. *)
Fixpoint py_len (s : string) : nat :=
  match s with
  | EmptyString => O
  | String c s' => if continues_character c then py_len s' else S (py_len s')
  end.

(** [s[:n]]: the first [n] characters of [s], all of [s] when it has
    fewer. *)
Fixpoint py_prefix (n : nat) (s : string) : string :=
  match s with
  | EmptyString => EmptyString
  | String c s' =>
      if continues_character c then String c (py_prefix n s')
      else match n with
           | O => EmptyString
           | S n' => String c (py_prefix n' s')
           end
  end.

(** A float that JSON can write: neither NaN nor an infinity. *)
Definition finite_float (f : spec_float) : bool :=
  match f with
  | S754_infinity _ | S754_nan => false
  | _ => true
  end.

(** The value holds no NaN and no infinity, at any depth: what
    [json.dumps(v, allow_nan=False)] needs in order not to raise. *)
Fixpoint json_compliant (v : json) : bool :=
  match v with
  | JFloat f => finite_float f
  | JArr l => forallb json_compliant l
  | JObj m => map_fold (fun _ x acc => json_compliant x && acc) true m
  | _ => true
  end.

(** The byte is A0..BF: after ED, the second byte of a surrogate. *)
Definition surrogate_second (c : Ascii.ascii) : bool :=
  match c with
  | Ascii.Ascii _ _ _ _ _ b5 b6 b7 => b7 && negb b6 && b5
  end.

(** The string holds a surrogate code point. *)
Fixpoint has_surrogate (s : string) : bool :=
  match s with
  | EmptyString => false
  | String a s' =>
      match s' with
      | String b _ => Ascii.eqb a (Ascii.ascii_of_nat 237) && surrogate_second b
      | EmptyString => false
      end || has_surrogate s'
  end.

(** No string of the value, key or leaf, holds a surrogate: what
    [s.encode("utf-8")] needs, of the text [json.dumps(v,
    ensure_ascii=False)] writes, in order not to raise. *)
Fixpoint json_encodable (v : json) : bool :=
  match v with
  | JStr s => negb (has_surrogate s)
  | JArr l => forallb json_encodable l
  | JObj m =>
      map_fold (fun k x acc => negb (has_surrogate k) && json_encodable x && acc)
               true m
  | _ => true
  end.

(** [d.setdefault(k, v)] on a dict, for its effect on [d]. *)
Definition setdefault (k : string) (v : json) (d : dict) : dict :=
  match d !! k with
  | Some _ => d
  | None => <[k := v]> d
  end.

(** [d.update(u)]: every item of [u] overrides or extends [d]. *)
Definition update (u d : dict) : dict := u ∪ d.

(** ** Exceptions *)

Inductive exn : Type :=
| RuntimeError (msg : string)
| ValueError (msg : string)
| AttributeError (msg : string)
| HTTPError (msg : string)
| RequestException (cls msg : string)
| UnicodeEncodeError (msg : string).

Definition exn_name (e : exn) : string :=
  match e with
  | RuntimeError _ => "RuntimeError"
  | ValueError _ => "ValueError"
  | AttributeError _ => "AttributeError"
  | HTTPError _ => "HTTPError"
  | RequestException cls _ => cls
  | UnicodeEncodeError _ => "UnicodeEncodeError"
  end.

Definition exn_str (e : exn) : string :=
  match e with
  | RuntimeError msg | ValueError msg | AttributeError msg
  | HTTPError msg | RequestException _ msg | UnicodeEncodeError msg => msg
  end.

(** ** Requests, responses and the world *)

(** What [requests] hands back for one HTTP exchange.  [resp_headers] is
    keyed by lower-cased header names (the library's mapping ignores
    case); [json_body] is the value of [r.json()], [None] when decoding
    raises. *)
Record Response : Type := mkResponse {
  status_code : Z;
  reason : string;
  resp_url : string;
  resp_headers : gmap string string;
  text : string;
  json_body : option json
}.

(** The one entry of the multipart [files] argument. *)
Record FilePart : Type := mkFilePart {
  fp_filename : string;
  fp_content : list Byte.byte;
  fp_mimetype : string
}.

Inductive Event : Type :=
| EvGet (url : string) (session_hdrs : dict) (hdrs : option dict) (timeout : Z)
| EvPost (url : string) (session_hdrs : dict) (files : gmap string FilePart)
         (data hdrs : dict) (timeout : Z)
| EvSleep (secs : Z).

Definition is_get (ev : Event) : bool :=
  match ev with EvGet _ _ _ _ => true | _ => false end.

Definition is_post (ev : Event) : bool :=
  match ev with EvPost _ _ _ _ _ _ => true | _ => false end.

Definition is_sleep (ev : Event) : bool :=
  match ev with EvSleep _ => true | _ => false end.

(** How many events of a history satisfy [p]. *)
Definition count (p : Event -> bool) (tr : list Event) : nat :=
  length (List.filter p tr).

Inductive NetOutcome : Type :=
| NetResponse (r : Response)
| NetError (cls msg : string).

(** The outcome of a request and the clock ticks it took (1000 per second). *)
Record Reply : Type := mkReply {
  outcome : NetOutcome;
  elapsed : Z
}.

(** The history is newest first; the world answers its head. *)
Definition World : Type := list Event -> Reply.

(** ** Configuration and library functions *)

(** The three module-level settings read from the environment.
    [RESULTS_JSON_PATH_format s] stands for
    [RESULTS_JSON_PATH.format(file_id=s)]. *)
Record Config : Type := mkConfig {
  BASE : string;
  UPLOAD_PATH : string;
  RESULTS_JSON_PATH_format : string -> string
}.

(** Library functions the client calls and this development does not look
    into: [mimetypes.guess_type] (its first component), [json.dumps],
    [repr], the headers a fresh [requests.Session] starts with, the
    message of the [ValueError] with which [json.dumps] refuses, under
    [allow_nan=False], a value that holds NaN or an infinity, and the
    message of the [UnicodeEncodeError] with which [str.encode] refuses
    the text of a value that holds a surrogate. *)
Record PyLib : Type := mkPyLib {
  guess_type : string -> option string;
  json_dumps : json -> string;
  py_repr : json -> string;
  session_default_headers : dict;
  nan_error_message : json -> string;
  encode_error_message : json -> string
}.

(** ** The monad *)

(** The state of one call: [trace] is the history of requests and sleeps,
    newest first; [now] the wall clock, in ticks; [session_headers] the
    headers of the [requests.Session]; [post_headers] and [post_data] the
    dict objects [headers] and [data] of the upload. *)
Record State : Type := mkState {
  trace : list Event;
  now : Z;
  session_headers : dict;
  post_headers : dict;
  post_data : dict
}.

(** How a computation ends: with a value, with a Python exception, or
    with the fuel of a loop used up. *)
Inductive Result (A : Type) : Type :=
| Ok (a : A)
| Raise (e : exn)
| OutOfFuel.
Arguments Ok {A} a.
Arguments Raise {A} e.
Arguments OutOfFuel {A}.

Definition M (A : Type) : Type := State -> Result A * State.

Definition ret {A} (a : A) : M A := fun st => (Ok a, st).

Definition raise {A} (e : exn) : M A := fun st => (Raise e, st).

Definition out_of_fuel {A} : M A := fun st => (OutOfFuel, st).

Definition bind {A B} (c : M A) (k : A -> M B) : M B :=
  fun st =>
    match c st with
    | (Ok a, st') => k a st'
    | (Raise e, st') => (Raise e, st')
    | (OutOfFuel, st') => (OutOfFuel, st')
    end.

(** [try: body except Exception: handler] *)
Definition try_except {A} (body : M A) (handler : exn -> M A) : M A :=
  fun st =>
    match body st with
    | (Raise e, st') => handler e st'
    | other => other
    end.

Notation "'do' x <- c ; k" := (bind c (fun x => k))
  (at level 10, x name, c at level 100, k at level 200).
Notation "c ;; k" := (bind c (fun _ => k))
  (at level 100, k at level 200, right associativity).

Definition set_trace (tr : list Event) (t : Z) (st : State) : State :=
  mkState tr t (session_headers st) (post_headers st) (post_data st).

Definition set_session_headers (h : dict) (st : State) : State :=
  mkState (trace st) (now st) h (post_headers st) (post_data st).

Definition set_post_headers (h : dict) (st : State) : State :=
  mkState (trace st) (now st) (session_headers st) h (post_data st).

Definition set_post_data (d : dict) (st : State) : State :=
  mkState (trace st) (now st) (session_headers st) (post_headers st) d.

Definition modify (f : State -> State) : M unit := fun st => (Ok tt, f st).

Definition gets {A} (f : State -> A) : M A := fun st => (Ok (f st), st).

(** ** The client, [mix_client.py] *)

Section Client.

Context (cfg : Config) (lib : PyLib) (world : World).

(** [str(v)], which is also what an f-string does with [{v}]. *)
Definition py_str (v : json) : string :=
  match v with
  | JStr s => s
  | _ => py_repr lib v
  end.

(** [v.get(k)]: only a dict has the method. *)
Definition py_get (v : json) (k : string) : M json :=
  match v with
  | JObj m => ret (default JNull (m !! k))
  | _ => raise (AttributeError
                  ("'" +:+ type_name v +:+ "' object has no attribute 'get'"))
  end.

(** [list(v.keys())] *)
Definition py_keys (v : json) : M json :=
  match v with
  | JObj m => ret (JArr (JStr <$> (map_to_list m).*1))
  | _ => raise (AttributeError
                  ("'" +:+ type_name v +:+ "' object has no attribute 'keys'"))
  end.

Definition time_time : M Z := gets now.

Definition time_sleep (secs : Z) : M unit :=
  modify (fun st => set_trace (EvSleep secs :: trace st) (now st + 1000 * secs) st).

(** One HTTP exchange: the request joins the history, the world answers
    it, the clock moves on, and a network failure is an exception. *)
Definition request (ev : Event) : M Response :=
  fun st =>
    let tr := ev :: trace st in
    let rp := world tr in
    let st' := set_trace tr (now st + elapsed rp) st in
    match outcome rp with
    | NetResponse r => (Ok r, st')
    | NetError cls msg => (Raise (RequestException cls msg), st')
    end.

Definition session_get (url : string) (hdrs : option dict) (timeout : Z) : M Response :=
  fun st => request (EvGet url (session_headers st) hdrs timeout) st.

(** [r.raise_for_status()] *)
Definition raise_for_status (r : Response) : M unit :=
  let line kind :=
    pretty (status_code r) +:+ " " +:+ kind +:+ " Error: " +:+ reason r
      +:+ " for url: " +:+ resp_url r in
  if ((400 <=? status_code r) && (status_code r <? 500))%Z then
    raise (HTTPError (line "Client"))
  else if ((500 <=? status_code r) && (status_code r <? 600))%Z then
    raise (HTTPError (line "Server"))
  else ret tt.

Definition BASE_HEADERS : dict :=
  list_to_map
    [ ("User-Agent", JStr "MixAnalyzerService/1.0 (+python; FastAPI client)");
      ("Accept", JStr "application/json, text/plain, */*");
      ("Accept-Language", JStr "en-GB,en;q=0.9") ].

Definition _guess_mimetype (filename : string) : string :=
  match guess_type lib filename with
  | Some mt => if Nat.eqb (String.length mt) 0 then "audio/mpeg" else mt
  | None => "audio/mpeg"
  end.

(** The session lives in the state: creating one resets its headers. *)
Definition _new_session : M unit :=
  modify (set_session_headers
            (update {[ "Connection" := JStr "keep-alive" ]}
                    (update BASE_HEADERS (session_default_headers lib)))).

Definition _get_csrf (timeout : Z) : M json :=
  let url := BASE cfg +:+ "/csrf-token" in
  do r <- session_get url
            (Some (<["Accept" := JStr "application/json"]> BASE_HEADERS)) timeout;
  raise_for_status r ;;
  do data <- match json_body r with
             | Some v => ret v
             | None => raise (RuntimeError
                                ("Could not parse CSRF response as JSON: "
                                   +:+ py_prefix 300 (text r)))
             end;
  do a <- py_get data "csrf_token";
  do token <- (if py_truthy a then ret a else py_get data "csrfToken");
  if negb (py_truthy token) then
    do keys <- py_keys data;
    raise (RuntimeError
             ("Could not fetch CSRF token: payload keys=" +:+ py_str keys))
  else
    modify (fun st =>
              set_session_headers (<["X-CSRFToken" := token]> (session_headers st)) st) ;;
    ret token.

Definition _browser_like_post_headers (csrf_token : json) : dict :=
  list_to_map
    [ ("Origin", JStr (BASE cfg));
      ("Referer", JStr (BASE cfg +:+ "/"));
      ("X-Requested-With", JStr "XMLHttpRequest");
      ("X-CSRFToken", csrf_token);
      ("Accept", JStr "application/json, text/plain, */*") ].

(** The local closure [do_post] of [_post_with_optional_retry]: it reads
    the dict objects [data] and [headers] when it is called. *)
Definition do_post (url : string) (files : gmap string FilePart) (timeout : Z)
  : M Response :=
  fun st =>
    request (EvPost url (session_headers st) files
                    (post_data st) (post_headers st) timeout) st.

Definition is_auth_failure (r : Response) : bool :=
  bool_decide (status_code r ∈ [401; 403]).

Definition is_overload (r : Response) : bool :=
  bool_decide (status_code r ∈ [429; 500; 502; 503; 504]).

Definition _post_with_optional_retry
    (url : string) (files : gmap string FilePart) (timeout : Z) (retry_csrf : bool)
  : M Response :=
  do r <- do_post url files timeout;
  do r <- (if is_auth_failure r && retry_csrf then
             try_except
               (do new_csrf <- _get_csrf (Z.min 20 timeout);
                modify (fun st =>
                          set_post_headers
                            (update (_browser_like_post_headers new_csrf)
                                    (post_headers st)) st) ;;
                modify (fun st =>
                          set_post_data
                            (<["csrf_token" := new_csrf]> (post_data st)) st) ;;
                do_post url files timeout)
               (fun _ => ret r)
           else ret r);
  if is_overload r then
    time_sleep 2 ;;
    do_post url files timeout
  else ret r.

(** The [while] loop of [_poll_json_results]; [fuel] bounds the number of
    times its condition is evaluated. *)
Fixpoint poll_loop (fuel : nat) (json_url : string) (start timeout : Z) : M json :=
  match fuel with
  | O => out_of_fuel
  | S fuel' =>
      do t <- time_time;
      if (t - start <? 1000 * timeout)%Z then
        do r <- session_get json_url None 15;
        if (status_code r =? 200)%Z then
          let ctype := default "" (resp_headers r !! "content-type") in
          if String.prefix "application/json" ctype then
            match json_body r with
            | Some v => ret v
            | None => time_sleep 2 ;; poll_loop fuel' json_url start timeout
            end
          else poll_loop fuel' json_url start timeout
        else if bool_decide (status_code r ∈ [404; 403]) then
          time_sleep 3 ;; poll_loop fuel' json_url start timeout
        else
          time_sleep 2 ;; poll_loop fuel' json_url start timeout
      else ret JNull
  end.

Definition results_url (file_id : json) : string :=
  BASE cfg +:+ RESULTS_JSON_PATH_format cfg (py_str file_id).

Definition _poll_json_results (fuel : nat) (file_id : json) (timeout : Z) : M json :=
  let json_url := results_url file_id in
  do start <- time_time;
  poll_loop fuel json_url start timeout.

Definition visualization_names : list string :=
  [ "waveform"; "spectrogram"; "spectrum"; "chromagram";
    "stereo_field"; "vectorscope"; "dynamic_range"; "spatial_field" ].

Definition _visuals_fallback (file_id : json) (filename : string) : json :=
  let static := BASE cfg +:+ "/static/uploads/" +:+ py_str file_id in
  JObj (list_to_map
    [ ("file_id", file_id);
      ("filename", JStr filename);
      ("status", JStr "visuals_ready_only");
      ("visualizations", JObj (list_to_map
         [ ("waveform", JStr (static +:+ "/waveform.png"));
           ("spectrogram", JStr (static +:+ "/spectrogram.png"));
           ("spectrum", JStr (static +:+ "/spectrum.png"));
           ("chromagram", JStr (static +:+ "/chromagram.png"));
           ("stereo_field", JStr (static +:+ "/stereo_field.png"));
           ("vectorscope", JStr (static +:+ "/vectorscope.png"));
           ("dynamic_range", JStr (static +:+ "/dynamic_range.png"));
           ("spatial_field", JStr (static +:+ "/spatial_field.png")) ])) ]).

(** [str(bool(b)).lower()] *)
Definition lower_bool (b : bool) : string := if b then "true" else "false".

(** [analyze_track], lines 169-196: session, token, upload. *)
Definition analyze_track_upload
    (file_bytes : list Byte.byte) (filename : string)
    (is_instrumental : bool) (timeout : Z) (retry_csrf : bool) : M Response :=
  _new_session ;;
  do csrf <- _get_csrf (Z.min 20 timeout);
  modify (set_post_headers (_browser_like_post_headers csrf)) ;;
  let upload_url := BASE cfg +:+ UPLOAD_PATH cfg in
  let files : gmap string FilePart :=
    {[ "file" := mkFilePart filename file_bytes (_guess_mimetype filename) ]} in
  modify (set_post_data
            (list_to_map
               [ ("csrf_token", csrf);
                 ("is_instrumental", JStr (lower_bool is_instrumental));
                 ("instrumental", JStr (lower_bool is_instrumental)) ])) ;;
  _post_with_optional_retry upload_url files timeout retry_csrf.

(** What the upload response leads to: the cached result to return as it
    is, or the job to poll for. *)
Inductive Upload : Type :=
| Cached (resp : json)
| Pending (file_id : json).

(** [analyze_track], lines 198-217: the checks on the upload response. *)
Definition analyze_track_check (r : Response) : M Upload :=
  (if negb (status_code r =? 200)%Z then
     let text :=
       if (4000 <? py_len (text r))%nat
       then py_prefix 4000 (text r) +:+ "…"
       else text r in
     raise (RuntimeError
              ("Upload failed (" +:+ pretty (status_code r) +:+ "): " +:+ text))
   else ret tt) ;;
  do resp <- match json_body r with
             | Some v => ret v
             | None => raise (RuntimeError
                                ("Upload returned non-JSON response: "
                                   +:+ py_prefix 500 (text r)))
             end;
  do results <- py_get resp "results";
  if py_truthy results then ret (Cached resp)
  else
    do file_id <- py_get resp "file_id";
    if negb (py_truthy file_id) then
      raise (RuntimeError
               ("No file_id in upload response: "
                  +:+ py_prefix 500 (json_dumps lib resp)))
    else ret (Pending file_id).

(** [v.setdefault(k, x)] as a statement: only a dict has the method. *)
Definition py_setdefault (v : json) (k : string) (x : json) : M json :=
  match v with
  | JObj m => ret (JObj (setdefault k x m))
  | _ => raise (AttributeError
                  ("'" +:+ type_name v +:+ "' object has no attribute 'setdefault'"))
  end.

(** [analyze_track], lines 219-227: polling, then the polled result or
    the fallback. *)
Definition analyze_track_poll
    (fuel : nat) (file_id : json) (filename : string) (timeout : Z) : M json :=
  do json_results <- _poll_json_results fuel file_id timeout;
  if py_truthy json_results then
    do json_results <- py_setdefault json_results "file_id" file_id;
    do json_results <- py_setdefault json_results "filename" (JStr filename);
    ret json_results
  else ret (_visuals_fallback file_id filename).

Definition analyze_track
    (fuel : nat) (file_bytes : list Byte.byte) (filename : string)
    (is_instrumental : bool) (timeout : Z) (retry_csrf : bool) : M json :=
  do r <- analyze_track_upload file_bytes filename is_instrumental timeout retry_csrf;
  do u <- analyze_track_check r;
  match u with
  | Cached resp => ret resp
  | Pending file_id => analyze_track_poll fuel file_id filename timeout
  end.

(** ** The front end, [analyze_service.py] *)

(** What the handler hands to the framework: the JSON body of a 200, or
    the [HTTPException] it raises. *)
Inductive HttpReply : Type :=
| JSONResponse (content : json)
| HTTPException (status : Z) (detail : string).

(** [x or "upload.mp3"] for an optional string. *)
Definition filename_or_default (name : option string) : string :=
  match name with
  | Some s => if Nat.eqb (String.length s) 0 then "upload.mp3" else s
  | None => "upload.mp3"
  end.

(** [JSONResponse(content)]: the body is rendered when the response is
    built, as [json.dumps(content, ensure_ascii=False, allow_nan=False,
    ...).encode("utf-8")].  [json.dumps] raises a [ValueError] on a NaN
    or an infinity; the encoding then raises a [UnicodeEncodeError] on a
    surrogate. *)
Definition new_JSONResponse (content : json) : M HttpReply :=
  if negb (json_compliant content)
  then raise (ValueError (nan_error_message lib content))
  else if negb (json_encodable content)
  then raise (UnicodeEncodeError (encode_error_message lib content))
  else ret (JSONResponse content).

(** The [/analyze] handler after [await song.read()] has produced
    [audio_bytes].  Writing the traceback to the console is left out. *)
Definition analyze
    (fuel : nat) (audio_bytes : list Byte.byte) (song_filename : option string)
    (instrumental : bool) (timeout : Z) : M HttpReply :=
  try_except
    ((if Nat.eqb (length audio_bytes) 0
      then raise (ValueError "Uploaded file is empty")
      else ret tt) ;;
     do result <- analyze_track fuel audio_bytes (filename_or_default song_filename)
                                instrumental timeout true;
     new_JSONResponse result)
    (fun e => ret (HTTPException 500 (exn_name e +:+ ": " +:+ exn_str e))).

End Client.

(** ** Sample configurations and remote hosts

    Concrete instances on which the client runs by computation. *)

Module Sample.

(** The defaults of the three settings. *)
Definition cfg : Config :=
  mkConfig "https://mixanalytic.com" "/upload"
           (fun file_id => "/api/results/" +:+ file_id +:+ ".json").

(** Stand-ins for the library functions: no MIME type is ever guessed,
    values print as "<" their type name ">", and the two messages of a
    failed rendering do not depend on the value. *)
Definition lib : PyLib :=
  mkPyLib (fun _ => None)
          (fun v => "<" +:+ type_name v +:+ ">")
          (fun v => "<" +:+ type_name v +:+ ">")
          ∅
          (fun _ => "Out of range float values are not JSON compliant")
          (fun _ => "'utf-8' codec can't encode character: surrogates not allowed").

Definition requests_in (tr : list Event) : nat :=
  count (fun ev => negb (is_sleep ev)) tr.

(** A host that answers the n-th request of a call with the n-th reply of
    a script, and with [last] once the script is used up. *)
Definition scripted (script : list Reply) (last : Reply) : World :=
  fun tr => nth (pred (requests_in tr)) script last.

(** A host that answers by the kind of request alone: token requests
    (the only GETs that pass headers of their own), uploads, and polls. *)
Definition by_request (token upload poll : Reply) : World :=
  fun tr =>
    match tr with
    | EvGet _ _ (Some _) _ :: _ => token
    | EvPost _ _ _ _ _ _ :: _ => upload
    | _ => poll
    end.

Definition response (status : Z) (ctype : string) (body : option json) : Response :=
  mkResponse status "" "" {[ "content-type" := ctype ]} "" body.

Definition json_response (status : Z) (body : json) : Response :=
  response status "application/json" (Some body).

(** Every sample exchange takes one tick. *)
Definition reply (r : Response) : Reply := mkReply (NetResponse r) 1.

Definition obj (items : list (string * json)) : json := JObj (list_to_map items).

Definition token_response : Response :=
  json_response 200 (obj [("csrf_token", JStr "tok")]).

Definition fresh_token_response : Response :=
  json_response 200 (obj [("csrfToken", JStr "tok2")]).

Definition failed_token_response : Response :=
  json_response 503 (obj [("csrf_token", JStr "tok")]).

Definition job_response : Response :=
  json_response 200 (obj [("file_id", JStr "abc")]).

Definition cached_response : Response :=
  json_response 200 (obj [("results", obj [("tempo", JInt 120)])]).

Definition no_job_response : Response := json_response 200 (obj []).

Definition falsy_job_response : Response :=
  json_response 200 (obj [("file_id", JStr "")]).

Definition forbidden_response : Response := json_response 403 (obj []).

Definition unavailable_response : Response := json_response 503 (obj []).

Definition not_found_response : Response := response 404 "text/html" None.

Definition html_response : Response := response 200 "text/html" None.

Definition polled_response : Response :=
  json_response 200 (obj [("tempo", JInt 120)]).

Definition empty_polled_response : Response := json_response 200 (obj []).

Definition audio : list Byte.byte := [Byte.x49; Byte.x44; Byte.x33].

Definition st0 : State := mkState [] 0 ∅ ∅ ∅.

(** The upload is answered with cached results. *)
Definition cached_host : World :=
  by_request (reply token_response) (reply cached_response) (reply not_found_response).

(** The upload is answered with neither results nor a file id. *)
Definition no_job_host : World :=
  by_request (reply token_response) (reply no_job_response) (reply not_found_response).

(** The upload is answered with an empty file id. *)
Definition falsy_job_host : World :=
  by_request (reply token_response) (reply falsy_job_response) (reply not_found_response).

(** The job is accepted and its results never appear. *)
Definition pending_host : World :=
  by_request (reply token_response) (reply job_response) (reply not_found_response).

(** The job is accepted and its results are there at the first poll. *)
Definition polled_host : World :=
  by_request (reply token_response) (reply job_response) (reply polled_response).

(** The job is accepted and the results URL serves an empty object. *)
Definition empty_object_host : World :=
  by_request (reply token_response) (reply job_response) (reply empty_polled_response).

(** The job is accepted and the results URL serves a page of HTML. *)
Definition html_host : World :=
  by_request (reply token_response) (reply job_response) (reply html_response).

(** The job is accepted and every poll fails to connect. *)
Definition unreachable_host : World :=
  by_request (reply token_response) (reply job_response)
             (mkReply (NetError "ConnectTimeout" "connect timed out") 1).

(** The token endpoint answers 503 with a well-formed token body. *)
Definition failed_token_host : World :=
  by_request (reply failed_token_response) (reply job_response) (reply not_found_response).

(** An upload that is refused, then overloaded, then accepted: 403, a
    fresh token, 503, 200. *)
Definition flaky_host : World :=
  scripted [ reply forbidden_response; reply fresh_token_response;
             reply unavailable_response; reply job_response ]
           (reply not_found_response).

Definition upload_url : string := BASE cfg +:+ UPLOAD_PATH cfg.

Definition upload_files : gmap string FilePart :=
  {[ "file" := mkFilePart "a.mp3" audio "audio/mpeg" ]}.

(** A state as [analyze_track] has it right before the upload. *)
Definition st_upload : State :=
  mkState [] 0 ∅
          (_browser_like_post_headers cfg (JStr "tok"))
          (list_to_map [ ("csrf_token", JStr "tok");
                         ("is_instrumental", JStr "false");
                         ("instrumental", JStr "false") ]).

Definition list_response : Response := json_response 200 (JArr [JStr "tok"]).

Definition timed_out : Reply := mkReply (NetError "ConnectTimeout" "connect timed out") 1.

(** The token endpoint answers 200 with a JSON list. *)
Definition list_token_host : World :=
  by_request (reply list_response) (reply job_response) (reply not_found_response).

(** The token endpoint cannot be reached. *)
Definition no_token_host : World :=
  by_request timed_out (reply job_response) (reply not_found_response).

(** The upload endpoint cannot be reached. *)
Definition no_upload_host : World :=
  by_request (reply token_response) timed_out (reply not_found_response).

(** The upload endpoint is overloaded and stays so. *)
Definition overloaded_host : World :=
  by_request (reply token_response) (reply unavailable_response)
             (reply not_found_response).

(** The upload endpoint answers 200 with a page of HTML. *)
Definition html_upload_host : World :=
  by_request (reply token_response) (reply html_response) (reply not_found_response).

(** The job is accepted and the results URL serves a JSON list. *)
Definition list_results_host : World :=
  by_request (reply token_response) (reply job_response) (reply list_response).

Definition results_url_abc : string := "https://mixanalytic.com/api/results/abc.json".

(** The state after the token was fetched from a host that hands out
    "tok". *)
Definition st_token : State :=
  snd (_get_csrf cfg lib pending_host 20 (snd (_new_session lib st0))).

(** A 404 that carries a JSON list. *)
Definition missing_list_response : Response :=
  json_response 404 (JArr [JStr "gone"]).

(** The job is accepted and every poll is answered 404 with a JSON list. *)
Definition missing_list_host : World :=
  by_request (reply token_response) (reply job_response)
             (reply missing_list_response).

(** The job is accepted, the first poll is answered 404 and the second
    fails to connect. *)
Definition lost_host : World :=
  scripted [ reply token_response; reply job_response;
             reply not_found_response ]
           timed_out.

(** A 500 and a page of HTML whose texts are not ASCII. *)
Definition accented_error_response : Response :=
  mkResponse 500 "" "" {[ "content-type" := "text/plain" ]}
             "Erreur : réessayez…" None.


(** The upload is answered with that 500. *)
Definition accented_error_host : World :=
  by_request (reply token_response) (reply accented_error_response)
             (reply not_found_response).


(** Cached results that hold a NaN, as [r.json()] makes of the JSON text
    NaN. *)
Definition nan_response : Response :=
  json_response 200 (obj [("results", obj [("tempo", JFloat S754_nan)])]).

Definition nan_host : World :=
  by_request (reply token_response) (reply nan_response)
             (reply not_found_response).

(** Cached results that hold a surrogate, as [r.json()] makes of the
    JSON text "\ud800". *)
Definition surrogate : string :=
  String (Ascii.ascii_of_nat 237)
    (String (Ascii.ascii_of_nat 160) (String (Ascii.ascii_of_nat 128) "")).

Definition surrogate_response : Response :=
  json_response 200 (obj [("results", obj [("title", JStr surrogate)])]).

Definition surrogate_host : World :=
  by_request (reply token_response) (reply surrogate_response)
             (reply not_found_response).

End Sample.

(** ** Observations

    Vocabulary of the statements below. *)

Section Observations.

Context (cfg : Config) (lib : PyLib).

(** The URL of one visualization of a job:
    {base}/static/uploads/{file_id}/{name}.png. *)
Definition visual_url (file_id : json) (name : string) : string :=
  BASE cfg +:+ "/static/uploads/" +:+ py_str lib file_id +:+ "/" +:+ name +:+ ".png".

(** The request [_get_csrf] sends from state [st]. *)
Definition csrf_request (timeout : Z) (st : State) : Event :=
  EvGet (BASE cfg +:+ "/csrf-token") (session_headers st)
        (Some (<["Accept" := JStr "application/json"]> BASE_HEADERS)) timeout.

(** The statuses on which [raise_for_status] raises. *)
Definition is_http_error (r : Response) : bool :=
  ((400 <=? status_code r) && (status_code r <? 600))%Z.

(** The dict [d] has the truthy value [v] under [k]. *)
Definition truthy_at (d : dict) (k : string) (v : json) : Prop :=
  d !! k = Some v /\ py_truthy v = true.

(** The dict [d] has no truthy value under [k]: no value, or a falsy one. *)
Definition no_truthy_at (d : dict) (k : string) : Prop :=
  forall v, d !! k = Some v -> py_truthy v = false.

(** The value a parsed JSON document carries under a key: none when the
    key is absent, and none when the document is not an object. *)
Definition field (resp : json) (k : string) : option json :=
  match resp with
  | JObj d => d !! k
  | _ => None
  end.

(** The error [analyze_track] raises for an upload response without a
    file id. *)
Definition missing_file_id_error (resp : json) : exn :=
  RuntimeError ("No file_id in upload response: "
                  +:+ py_prefix 500 (json_dumps lib resp)).

(** The error of calling the dict method [get] on something else. *)
Definition no_get_error (v : json) : exn :=
  AttributeError ("'" +:+ type_name v +:+ "' object has no attribute 'get'").

(** The request one iteration of the polling loop sends from state [st]. *)
Definition poll_request (json_url : string) (st : State) : Event :=
  EvGet json_url (session_headers st) None 15.

(** The state after a request: the event is recorded and the clock has
    moved by the time the world took to answer. *)
Definition after_request (world : World) (ev : Event) (st : State) : State :=
  set_trace (ev :: trace st) (now st + elapsed (world (ev :: trace st))) st.

(** The content type of a response announces JSON. *)
Definition json_content_type (r : Response) : bool :=
  String.prefix "application/json" (default "" (resp_headers r !! "content-type")).

(** Every poll of [json_url] is answered with an HTTP response: none
    fails at the network level. *)
Definition polls_answered (world : World) (json_url : string) : Prop :=
  forall tr sh, exists r,
    outcome (world (EvGet json_url sh None 15 :: tr)) = NetResponse r.

(** Every poll of [json_url] takes at least one tick of the clock. *)
Definition polls_take_time (world : World) (json_url : string) : Prop :=
  forall tr sh, 0 < elapsed (world (EvGet json_url sh None 15 :: tr)).

(** Whatever truthy JSON the polling loop decodes from a poll of
    [json_url] is an object.  The loop decodes a body only when the
    status is 200 and the content type announces JSON. *)
Definition polled_json_is_object (world : World) (json_url : string) : Prop :=
  forall tr sh r v,
    outcome (world (EvGet json_url sh None 15 :: tr)) = NetResponse r ->
    status_code r = 200 -> json_content_type r = true ->
    json_body r = Some v -> py_truthy v = true -> exists d, v = JObj d.

(** Every poll of [json_url] is answered 200 with a content type that
    does not announce JSON. *)
Definition polls_non_json_200 (world : World) (json_url : string) : Prop :=
  forall tr sh, exists r,
    outcome (world (EvGet json_url sh None 15 :: tr)) = NetResponse r
    /\ status_code r = 200 /\ json_content_type r = false.

(** The event is a poll of [json_url]: a GET with no headers of its own
    and a timeout of 15 seconds. *)
Definition is_poll_request (json_url : string) (ev : Event) : Prop :=
  exists sh, ev = EvGet json_url sh None 15.

(** The polled dict once [analyze_track] has set its two defaults. *)
Definition with_job_defaults (file_id : json) (filename : string) (d : dict) : dict :=
  setdefault "filename" (JStr filename) (setdefault "file_id" file_id d).

(** The request the closure [do_post] sends from state [st]. *)
Definition post_request
    (url : string) (files : gmap string FilePart) (timeout : Z) (st : State) : Event :=
  EvPost url (session_headers st) files (post_data st) (post_headers st) timeout.

(** [ev] is a POST of [files] to [url] with [timeout]. *)
Definition is_post_to
    (url : string) (files : gmap string FilePart) (timeout : Z) (ev : Event) : Prop :=
  exists sh data hdrs, ev = EvPost url sh files data hdrs timeout.

(** [ev] is such a POST, with the token [tok] both in its X-CSRFToken
    header and in the csrf_token field of its body. *)
Definition is_post_with_token
    (url : string) (files : gmap string FilePart) (timeout : Z) (tok : json)
    (ev : Event) : Prop :=
  exists sh data hdrs,
    ev = EvPost url sh files data hdrs timeout
    /\ hdrs !! "X-CSRFToken" = Some tok
    /\ data !! "csrf_token" = Some tok.

(** What a request returns or raises, given the world's reply. *)
Definition net_result (rp : Reply) : Result Response :=
  match outcome rp with
  | NetResponse r => Ok r
  | NetError cls msg => Raise (RequestException cls msg)
  end.

(** The state once a refreshed token [tok] has been written into the
    headers and the body of the upload. *)
Definition refreshed (tok : json) (st : State) : State :=
  let st' :=
    set_post_headers (update (_browser_like_post_headers cfg tok) (post_headers st)) st in
  set_post_data (<["csrf_token" := tok]> (post_data st')) st'.

(** The kind of an event, to read the outline of a history. *)
Definition event_kind (ev : Event) : string :=
  match ev with
  | EvGet _ _ _ _ => "GET"
  | EvPost _ _ _ _ _ _ => "POST"
  | EvSleep _ => "sleep"
  end.

(** The state after a sleep of [secs] seconds. *)
Definition after_sleep (secs : Z) (st : State) : State :=
  set_trace (EvSleep secs :: trace st) (now st + 1000 * secs) st.

End Observations.

(** ** Observations on whole runs

    Relations between the state a computation starts from and the state
    it ends in, and what it means for a computation to keep one. *)

(** Every run of [c] relates its first state to its last by [R]. *)
Definition preserves {A} (R : State -> State -> Prop) (c : M A) : Prop :=
  forall st, R st (snd (c st)).

(** The history of [st'] is the history of [st] with events added, each of
    them satisfying [P]. *)
Definition grows_by (P : Event -> Prop) (st st' : State) : Prop :=
  exists new, trace st' = (new ++ trace st)%list /\ Forall P new.

(** The history of [st'] is the history of [st] with at most [n] events
    added. *)
Definition grows_within (n : nat) (st st' : State) : Prop :=
  exists new, trace st' = (new ++ trace st)%list /\ (length new <= n)%nat.

(** The two dicts agree on every key but [k]. *)
Definition agree_except (k : string) (d d' : dict) : Prop :=
  forall k', k' <> k -> d' !! k' = d !! k'.

(** The dicts of the upload are the same in both states. *)
Definition same_upload_dicts (st st' : State) : Prop :=
  post_headers st' = post_headers st /\ post_data st' = post_data st.

Section ClientEvents.

Context (cfg : Config) (lib : PyLib).

(** A token request: a GET of {BASE}/csrf-token that asks for JSON. *)
Definition is_token_request (ev : Event) : Prop :=
  exists sh timeout,
    ev = EvGet (BASE cfg +:+ "/csrf-token") sh
               (Some (<["Accept" := JStr "application/json"]> BASE_HEADERS))
               timeout.

(** What the polling of [json_url] may add to a history: a GET of that
    URL with no headers of its own and a timeout of 15 seconds, or a
    sleep of 2 or of 3 seconds. *)
Definition is_poll_event (json_url : string) (ev : Event) : Prop :=
  (exists sh, ev = EvGet json_url sh None 15)
  \/ ev = EvSleep 2 \/ ev = EvSleep 3.

(** What the resilient POST may add to a history: a POST of [files] to
    [url] with [timeout], a token request, or a sleep of 2 seconds. *)
Definition is_upload_event
    (url : string) (files : gmap string FilePart) (timeout : Z) (ev : Event) : Prop :=
  is_post_to url files timeout ev \/ is_token_request ev \/ ev = EvSleep 2.

(** What a whole [analyze_track] call may add to a history: token
    requests, POSTs to the upload URL, polls of the results URL of some
    job, and sleeps of 2 or 3 seconds. *)
Definition is_client_event (ev : Event) : Prop :=
  is_token_request ev
  \/ (exists sh files data hdrs timeout,
        ev = EvPost (BASE cfg +:+ UPLOAD_PATH cfg) sh files data hdrs timeout)
  \/ (exists file_id sh, ev = EvGet (results_url cfg lib file_id) sh None 15)
  \/ ev = EvSleep 2 \/ ev = EvSleep 3.

(** The names of the headers [_browser_like_post_headers] sets. *)
Definition browser_header_names : list string :=
  [ "Origin"; "Referer"; "X-Requested-With"; "X-CSRFToken"; "Accept" ].

(** What the resilient POST may do to a state: add upload events to the
    history, change the csrf_token field of the body, the X-CSRFToken
    header of the session, and the browser headers of the upload. *)
Definition upload_step
    (url : string) (files : gmap string FilePart) (timeout : Z)
    (st st' : State) : Prop :=
  grows_by (is_upload_event url files timeout) st st'
  /\ agree_except "csrf_token" (post_data st) (post_data st')
  /\ agree_except "X-CSRFToken" (session_headers st) (session_headers st')
  /\ (forall k, k ∉ browser_header_names ->
               post_headers st' !! k = post_headers st !! k).

(** What the resilient POST may do to a state when it may not refresh
    the token: add POSTs and sleeps of 2 seconds to the history. *)
Definition plain_upload_step
    (url : string) (files : gmap string FilePart) (timeout : Z)
    (st st' : State) : Prop :=
  grows_by (fun ev => is_post_to url files timeout ev \/ ev = EvSleep 2) st st'
  /\ same_upload_dicts st st'
  /\ session_headers st' = session_headers st.

(** The four headers every new session is given, whatever the defaults
    of the library. *)
Definition own_session_headers : list (string * json) :=
  [ ("User-Agent", JStr "MixAnalyzerService/1.0 (+python; FastAPI client)");
    ("Accept", JStr "application/json, text/plain, */*");
    ("Accept-Language", JStr "en-GB,en;q=0.9");
    ("Connection", JStr "keep-alive") ].

(** The multipart body of the upload for a token and a flag. *)
Definition upload_data (csrf : json) (is_instrumental : bool) : dict :=
  list_to_map
    [ ("csrf_token", csrf);
      ("is_instrumental", JStr (if is_instrumental then "true" else "false"));
      ("instrumental", JStr (if is_instrumental then "true" else "false")) ].

(** The error of an upload that ends in a status other than 200: the
    status and the text of the response, cut after 4000 characters. *)
Definition upload_failed_error (r : Response) : exn :=
  RuntimeError
    ("Upload failed (" +:+ pretty (status_code r) +:+ "): "
       +:+ (if (4000 <? py_len (text r))%nat
            then py_prefix 4000 (text r) +:+ "…"
            else text r)).

(** The error of an upload answered 200 with a body that is not JSON. *)
Definition upload_non_json_error (r : Response) : exn :=
  RuntimeError
    ("Upload returned non-JSON response: " +:+ py_prefix 500 (text r)).

(** The error of calling the dict method [setdefault] on something else. *)
Definition no_setdefault_error (v : json) : exn :=
  AttributeError
    ("'" +:+ type_name v +:+ "' object has no attribute 'setdefault'").


(** What polling may do to a state: add poll events to the history. *)
Definition poll_step (json_url : string) (st st' : State) : Prop :=
  grows_by (is_poll_event json_url) st st'
  /\ session_headers st' = session_headers st
  /\ same_upload_dicts st st'.

End ClientEvents.

(** * Properties *)

(** ** Running the monad *)

Lemma string_app_assoc (a b c : string) : (a +:+ b) +:+ c = a +:+ (b +:+ c).
Proof.
  induction a as [|ch a IH]; [reflexivity |].
  change (String ch ((a +:+ b) +:+ c) = String ch (a +:+ (b +:+ c))).
  by rewrite IH.
Qed.

Lemma bind_ok {A B} (c : M A) (k : A -> M B) st a st' :
  c st = (Ok a, st') -> bind c k st = k a st'.
Proof. intros H. unfold bind. by rewrite H. Qed.

Lemma bind_raise {A B} (c : M A) (k : A -> M B) st e st' :
  c st = (Raise e, st') -> bind c k st = (Raise e, st').
Proof. intros H. unfold bind. by rewrite H. Qed.

Lemma bind_out_of_fuel {A B} (c : M A) (k : A -> M B) st st' :
  c st = (OutOfFuel, st') -> bind c k st = (OutOfFuel, st').
Proof. intros H. unfold bind. by rewrite H. Qed.

Lemma py_truthy_obj (m : dict) : py_truthy (JObj m) = true <-> m ≠ ∅.
Proof.
  simpl. rewrite negb_true_iff, Nat.eqb_neq. by rewrite map_size_empty_iff.
Qed.

Section Properties.

Context (cfg : Config) (lib : PyLib) (world : World).

Lemma request_response ev st r :
  outcome (world (ev :: trace st)) = NetResponse r ->
  request world ev st
  = (Ok r, set_trace (ev :: trace st) (now st + elapsed (world (ev :: trace st))) st).
Proof. intros H. unfold request. by rewrite H. Qed.

Lemma request_error ev st cls msg :
  outcome (world (ev :: trace st)) = NetError cls msg ->
  request world ev st
  = (Raise (RequestException cls msg),
     set_trace (ev :: trace st) (now st + elapsed (world (ev :: trace st))) st).
Proof. intros H. unfold request. by rewrite H. Qed.

Lemma session_get_response url hdrs timeout st r :
  outcome (world (EvGet url (session_headers st) hdrs timeout :: trace st))
  = NetResponse r ->
  session_get world url hdrs timeout st
  = (Ok r,
     set_trace (EvGet url (session_headers st) hdrs timeout :: trace st)
       (now st + elapsed (world (EvGet url (session_headers st) hdrs timeout :: trace st)))
       st).
Proof. apply request_response. Qed.

Lemma session_get_error url hdrs timeout st cls msg :
  outcome (world (EvGet url (session_headers st) hdrs timeout :: trace st))
  = NetError cls msg ->
  session_get world url hdrs timeout st
  = (Raise (RequestException cls msg),
     set_trace (EvGet url (session_headers st) hdrs timeout :: trace st)
       (now st + elapsed (world (EvGet url (session_headers st) hdrs timeout :: trace st)))
       st).
Proof. apply request_error. Qed.

(** ** The front end *)

(** C5. An upload that reads as the empty byte sequence is answered with
    the 500 of a [ValueError], and the state, with it the history of
    requests, is the one the handler started from: no token fetch, no
    upload POST and no poll GET was issued. *)
Theorem analyze_empty_upload_no_network
    (fuel : nat) (song_filename : option string) (instrumental : bool)
    (timeout : Z) (st : State) :
  analyze cfg lib world fuel [] song_filename instrumental timeout st
  = (Ok (HTTPException 500 "ValueError: Uploaded file is empty"), st)
  /\ trace (snd (analyze cfg lib world fuel [] song_filename instrumental timeout st))
     = trace st.
Proof. split; reflexivity. Qed.

(** ** The visuals fallback *)

(** C7. The fallback for a file id and a file name is a mapping with
    exactly the keys file_id, filename, status and visualizations; the
    first two hold the given values, status is "visuals_ready_only", and
    visualizations maps exactly the eight names to
    {base}/static/uploads/{file_id}/{name}.png. *)
Theorem visuals_fallback_shape (file_id : json) (filename : string) :
  exists m vis : dict,
    _visuals_fallback cfg lib file_id filename = JObj m
    /\ dom m = {[ "file_id"; "filename"; "status"; "visualizations" ]}
    /\ m !! "file_id" = Some file_id
    /\ m !! "filename" = Some (JStr filename)
    /\ m !! "status" = Some (JStr "visuals_ready_only")
    /\ m !! "visualizations" = Some (JObj vis)
    /\ dom vis = list_to_set visualization_names
    /\ size vis = 8%nat
    /\ Forall (fun name => vis !! name = Some (JStr (visual_url cfg lib file_id name)))
              visualization_names.
Proof.
  eexists _, _. split; [reflexivity |].
  repeat split; try (vm_compute; reflexivity).
  unfold visualization_names, visual_url.
  repeat constructor;
    rewrite <- !string_app_assoc; simpl String.append;
    rewrite ?string_app_assoc; vm_compute; reflexivity.
Qed.

(** ** Token acquisition *)

Lemma raise_for_status_ok r st :
  is_http_error r = false -> raise_for_status r st = (Ok tt, st).
Proof.
  unfold is_http_error, raise_for_status. intros H.
  destruct (400 <=? status_code r)%Z eqn:E1, (status_code r <? 500)%Z eqn:E2,
           (500 <=? status_code r)%Z eqn:E3, (status_code r <? 600)%Z eqn:E4;
    simpl in *; try reflexivity; try discriminate; lia.
Qed.

Lemma raise_for_status_error r st :
  is_http_error r = true ->
  exists msg, raise_for_status r st = (Raise (HTTPError msg), st).
Proof.
  unfold is_http_error, raise_for_status. intros H.
  destruct (400 <=? status_code r)%Z eqn:E1, (status_code r <? 500)%Z eqn:E2,
           (500 <=? status_code r)%Z eqn:E3, (status_code r <? 600)%Z eqn:E4;
    simpl in *; try discriminate; eauto; lia.
Qed.

Lemma default_truthy_at d k v :
  truthy_at d k v -> default JNull (d !! k) = v /\ py_truthy (default JNull (d !! k)) = true.
Proof. intros [-> Hv]. by simpl. Qed.

Lemma default_no_truthy_at d k :
  no_truthy_at d k -> py_truthy (default JNull (d !! k)) = false.
Proof.
  intros H. destruct (d !! k) as [v|] eqn:E; simpl; [by apply H | reflexivity].
Qed.

(** C6, as the code has it.  When the token request is answered with a
    status from 400 to 599, [_get_csrf] raises the [HTTPError] of
    [raise_for_status], whatever the body.  On every other status: a body
    that is a JSON object with a truthy value under "csrf_token" yields
    that value; failing that, a truthy value under "csrfToken" yields
    that one; either way the token is stored as the session's
    X-CSRFToken header.  A body that is not JSON, or an object with a
    truthy value under neither key, raises a [RuntimeError]. *)
Theorem get_csrf_contract (timeout : Z) (st : State) (r : Response) :
  outcome (world (csrf_request cfg timeout st :: trace st)) = NetResponse r ->
  let run := _get_csrf cfg lib world timeout st in
  (is_http_error r = true -> exists msg, fst run = Raise (HTTPError msg))
  /\ (is_http_error r = false ->
      (forall d tok,
          json_body r = Some (JObj d) -> truthy_at d "csrf_token" tok ->
          fst run = Ok tok
          /\ session_headers (snd run) !! "X-CSRFToken" = Some tok)
      /\ (forall d tok,
          json_body r = Some (JObj d) -> no_truthy_at d "csrf_token" ->
          truthy_at d "csrfToken" tok ->
          fst run = Ok tok
          /\ session_headers (snd run) !! "X-CSRFToken" = Some tok)
      /\ (json_body r = None ->
          fst run = Raise (RuntimeError
                             ("Could not parse CSRF response as JSON: "
                                +:+ py_prefix 300 (text r))))
      /\ (forall d,
          json_body r = Some (JObj d) -> no_truthy_at d "csrf_token" ->
          no_truthy_at d "csrfToken" ->
          exists keys,
            fst run = Raise (RuntimeError
                               ("Could not fetch CSRF token: payload keys="
                                  +:+ keys)))).
Proof.
  intros Hw run. subst run. unfold _get_csrf.
  erewrite bind_ok by (apply session_get_response; exact Hw).
  split.
  - intros He. edestruct (raise_for_status_error r) as [msg Hmsg]; [exact He |].
    exists msg. by erewrite bind_raise by exact Hmsg.
  - intros He.
    erewrite bind_ok by (by apply raise_for_status_ok).
    split; [| split; [| split]].
    + intros d tok -> Ht. apply default_truthy_at in Ht as [Hd Ht].
      unfold bind, py_get, ret, modify; simpl. rewrite Ht. simpl.
      rewrite Hd, Ht in *. simpl. split; [reflexivity | apply lookup_insert_eq].
    + intros d tok -> Hno Ht.
      apply default_no_truthy_at in Hno. apply default_truthy_at in Ht as [Hd Ht].
      unfold bind, py_get, ret, modify; simpl. rewrite Hno. simpl.
      rewrite Hd, Ht in *. simpl. split; [reflexivity | apply lookup_insert_eq].
    + intros ->. reflexivity.
    + intros d -> Hno1 Hno2.
      apply default_no_truthy_at in Hno1, Hno2.
      unfold bind, py_get, ret, modify; simpl. rewrite Hno1. simpl.
      rewrite Hno2. simpl. eauto.
Qed.

(** ** The checks on the upload response *)

Lemma check_upload_200 (r : Response) (resp : json) (st : State) :
  status_code r = 200 -> json_body r = Some resp ->
  analyze_track_check lib r st
  = (do results <- py_get resp "results";
     if py_truthy results then ret (Cached resp)
     else
       do file_id <- py_get resp "file_id";
       if negb (py_truthy file_id) then raise (missing_file_id_error lib resp)
       else ret (Pending file_id)) st.
Proof.
  intros H200 Hbody. unfold analyze_track_check. rewrite H200, Hbody. reflexivity.
Qed.

(** C4. When the upload ends in a 200 response whose parsed JSON has a
    truthy "results" field, [analyze_track] returns that parsed response
    as it is, in the state the upload left: the history has grown by no
    request, so nothing was polled. *)
Theorem analyze_track_cached_results
    (fuel : nat) (file_bytes : list Byte.byte) (filename : string)
    (is_instrumental : bool) (timeout : Z) (retry_csrf : bool)
    (st st' : State) (r : Response) (resp results : json) :
  analyze_track_upload cfg lib world file_bytes filename is_instrumental
                       timeout retry_csrf st = (Ok r, st') ->
  status_code r = 200 ->
  json_body r = Some resp ->
  field resp "results" = Some results ->
  py_truthy results = true ->
  analyze_track cfg lib world fuel file_bytes filename is_instrumental
                timeout retry_csrf st = (Ok resp, st')
  /\ trace (snd (analyze_track cfg lib world fuel file_bytes filename
                              is_instrumental timeout retry_csrf st))
     = trace st'.
Proof.
  intros Hup H200 Hbody Hfield Htruthy.
  assert (analyze_track cfg lib world fuel file_bytes filename is_instrumental
            timeout retry_csrf st = (Ok resp, st')) as Hrun.
  { unfold analyze_track. erewrite bind_ok by exact Hup.
    destruct resp; try discriminate Hfield. simpl in Hfield.
    unfold bind. rewrite (check_upload_200 r _ st' H200 Hbody).
    unfold bind, py_get, ret. rewrite Hfield. simpl. by rewrite Htruthy. }
  by rewrite Hrun.
Qed.

(** C8. When the upload ends in a 200 response whose parsed JSON has no
    truthy "results" field and no "file_id", [analyze_track] raises, in
    the state the upload left, so before any polling request: the
    missing-file-id [RuntimeError] when the JSON is an object, and the
    [AttributeError] of the first [get] when it is not. *)
Theorem analyze_track_requires_file_id
    (fuel : nat) (file_bytes : list Byte.byte) (filename : string)
    (is_instrumental : bool) (timeout : Z) (retry_csrf : bool)
    (st st' : State) (r : Response) (resp : json) :
  analyze_track_upload cfg lib world file_bytes filename is_instrumental
                       timeout retry_csrf st = (Ok r, st') ->
  status_code r = 200 ->
  json_body r = Some resp ->
  (forall v, field resp "results" = Some v -> py_truthy v = false) ->
  field resp "file_id" = None ->
  analyze_track cfg lib world fuel file_bytes filename is_instrumental
                timeout retry_csrf st
  = (Raise (match resp with
            | JObj _ => missing_file_id_error lib resp
            | _ => no_get_error resp
            end), st').
Proof.
  intros Hup H200 Hbody Hres Hfid.
  unfold analyze_track. erewrite bind_ok by exact Hup.
  unfold bind at 1. rewrite (check_upload_200 r _ st' H200 Hbody).
  destruct resp; try reflexivity.
  simpl in Hres, Hfid. unfold bind, py_get, ret.
  rewrite (default_no_truthy_at _ _ Hres). rewrite Hfid. reflexivity.
Qed.

(** C10. When the upload ends in a 200 response whose parsed JSON is an
    object with no truthy "results" field and with a falsy value under
    "file_id", [analyze_track] raises the very error of a missing
    "file_id", in the state the upload left. *)
Theorem analyze_track_falsy_file_id
    (fuel : nat) (file_bytes : list Byte.byte) (filename : string)
    (is_instrumental : bool) (timeout : Z) (retry_csrf : bool)
    (st st' : State) (r : Response) (resp file_id : json) :
  analyze_track_upload cfg lib world file_bytes filename is_instrumental
                       timeout retry_csrf st = (Ok r, st') ->
  status_code r = 200 ->
  json_body r = Some resp ->
  (forall v, field resp "results" = Some v -> py_truthy v = false) ->
  field resp "file_id" = Some file_id ->
  py_truthy file_id = false ->
  analyze_track cfg lib world fuel file_bytes filename is_instrumental
                timeout retry_csrf st
  = (Raise (missing_file_id_error lib resp), st').
Proof.
  intros Hup H200 Hbody Hres Hfid Hfalsy.
  unfold analyze_track. erewrite bind_ok by exact Hup.
  unfold bind at 1. rewrite (check_upload_200 r _ st' H200 Hbody).
  destruct resp; try discriminate Hfid.
  simpl in Hres, Hfid. unfold bind, py_get, ret.
  rewrite (default_no_truthy_at _ _ Hres). rewrite Hfid. simpl.
  by rewrite Hfalsy.
Qed.

(** ** The polling loop *)

Lemma poll_loop_get (fuel : nat) (json_url : string) (start timeout : Z)
    (st : State) (r : Response) :
  now st - start < 1000 * timeout ->
  outcome (world (poll_request json_url st :: trace st)) = NetResponse r ->
  poll_loop world (S fuel) json_url start timeout st
  = (if (status_code r =? 200)%Z then
       if json_content_type r then
         match json_body r with
         | Some v => ret v
         | None => time_sleep 2 ;; poll_loop world fuel json_url start timeout
         end
       else poll_loop world fuel json_url start timeout
     else if bool_decide (status_code r ∈ [404; 403]) then
       time_sleep 3 ;; poll_loop world fuel json_url start timeout
     else
       time_sleep 2 ;; poll_loop world fuel json_url start timeout)
      (after_request world (poll_request json_url st) st).
Proof.
  intros Hlt Hw. simpl. unfold bind at 1. unfold time_time, gets.
  assert ((now st - start <? 1000 * timeout)%Z = true) as -> by lia.
  erewrite bind_ok by (apply session_get_response; exact Hw).
  reflexivity.
Qed.

Lemma time_sleep_then {A} (secs : Z) (k : M A) (st : State) :
  (time_sleep secs ;; k) st
  = k (set_trace (EvSleep secs :: trace st) (now st + 1000 * secs) st).
Proof. reflexivity. Qed.

(** With every poll answered and taking time, the loop ends once the fuel
    exceeds the ticks left on the clock; it ends with [None] or with the
    JSON decoded from one of the answers, a 200 whose content type
    announces JSON. *)
Lemma poll_loop_terminates (json_url : string) (start timeout : Z) :
  polls_answered world json_url ->
  polls_take_time world json_url ->
  forall (n fuel : nat) (st : State),
    start + 1000 * timeout - now st <= Z.of_nat n ->
    (n < fuel)%nat ->
    exists v st',
      poll_loop world fuel json_url start timeout st = (Ok v, st')
      /\ (v = JNull
          \/ exists tr sh r,
               outcome (world (EvGet json_url sh None 15 :: tr)) = NetResponse r
               /\ status_code r = 200
               /\ json_content_type r = true
               /\ json_body r = Some v).
Proof.
  intros Hans Htime n.
  induction n as [|n IH]; intros fuel st Hleft Hfuel;
    (destruct fuel as [|fuel]; [lia |]);
    destruct (decide (now st - start < 1000 * timeout)) as [Hlt | Hge].
  - lia.
  - exists JNull, st. split; [| by left].
    simpl. unfold bind, time_time, gets.
    by assert ((now st - start <? 1000 * timeout)%Z = false) as -> by lia.
  - destruct (Hans (trace st) (session_headers st)) as [r Hr].
    pose proof (Htime (trace st) (session_headers st)) as Hpos.
    rewrite (poll_loop_get fuel json_url start timeout st r Hlt Hr).
    assert (forall st'', now st + 1 <= now st'' ->
              exists v st',
                poll_loop world fuel json_url start timeout st'' = (Ok v, st')
                /\ (v = JNull
                    \/ exists tr sh r,
                         outcome (world (EvGet json_url sh None 15 :: tr))
                         = NetResponse r
                         /\ status_code r = 200
                         /\ json_content_type r = true
                         /\ json_body r = Some v)) as Hnext.
    { intros st'' Hnow. apply IH; lia. }
    destruct (status_code r =? 200)%Z eqn:H200.
    + destruct (json_content_type r) eqn:Hct.
      * destruct (json_body r) as [v|] eqn:Hbody.
        -- exists v, (after_request world (poll_request json_url st) st).
           split; [reflexivity |]. right.
           apply Z.eqb_eq in H200. exists (trace st), (session_headers st), r.
           done.
        -- rewrite time_sleep_then. apply Hnext. simpl.
           unfold poll_request. lia.
      * apply Hnext. simpl. unfold poll_request. lia.
    + destruct (bool_decide (status_code r ∈ [404; 403]));
        rewrite time_sleep_then; apply Hnext; simpl; unfold poll_request; lia.
  - exists JNull, st. split; [| by left].
    simpl. unfold bind, time_time, gets.
    by assert ((now st - start <? 1000 * timeout)%Z = false) as -> by lia.
Qed.

(** Once the timeout has elapsed the loop returns [None] and does
    nothing else. *)
Lemma poll_loop_expired (fuel : nat) (json_url : string) (start timeout : Z)
    (st : State) :
  1000 * timeout <= now st - start ->
  poll_loop world (S fuel) json_url start timeout st = (Ok JNull, st).
Proof.
  intros Hge. simpl. unfold bind, time_time, gets.
  by assert ((now st - start <? 1000 * timeout)%Z = false) as -> by lia.
Qed.

(** A poll that fails at the network level ends the loop with that
    failure, at whatever iteration it happens. *)
Lemma poll_loop_network_error (fuel : nat) (json_url : string)
    (start timeout : Z) (st : State) (cls msg : string) :
  now st - start < 1000 * timeout ->
  outcome (world (poll_request json_url st :: trace st)) = NetError cls msg ->
  poll_loop world (S fuel) json_url start timeout st
  = (Raise (RequestException cls msg),
     after_request world (poll_request json_url st) st).
Proof.
  intros Hlt Hw. simpl. unfold bind at 1. unfold time_time, gets.
  assert ((now st - start <? 1000 * timeout)%Z = true) as -> by lia.
  by erewrite bind_raise by (apply session_get_error; exact Hw).
Qed.

(** The loop only adds to the history. *)
Lemma poll_loop_history (fuel : nat) (json_url : string) (start timeout : Z) :
  forall st, exists later,
    trace (snd (poll_loop world fuel json_url start timeout st))
    = (later ++ trace st)%list.
Proof.
  induction fuel as [|fuel IH]; intros st; [by exists [] |].
  destruct (decide (now st - start < 1000 * timeout)) as [Hlt | Hge];
    [| rewrite poll_loop_expired by lia; by exists []].
  destruct (outcome (world (poll_request json_url st :: trace st)))
    as [r | cls msg] eqn:Hw;
    [| rewrite (poll_loop_network_error _ _ _ _ _ _ _ Hlt Hw);
       by exists [poll_request json_url st]].
  rewrite (poll_loop_get fuel json_url start timeout st r Hlt Hw).
  assert (forall st2 pre,
            trace st2 = (pre ++ poll_request json_url st :: trace st)%list ->
            exists later,
              trace (snd (poll_loop world fuel json_url start timeout st2))
              = (later ++ trace st)%list) as Hnext.
  { intros st2 pre H2. destruct (IH st2) as [later Hlater].
    exists (later ++ pre ++ [poll_request json_url st])%list.
    rewrite Hlater, H2. by rewrite <- !app_assoc. }
  destruct (status_code r =? 200)%Z.
  - destruct (json_content_type r).
    + destruct (json_body r);
        [by exists [poll_request json_url st] |].
      rewrite time_sleep_then. by apply (Hnext _ [EvSleep 2]).
    + by apply (Hnext _ []).
  - destruct (bool_decide (status_code r ∈ [404; 403]));
      rewrite time_sleep_then;
      [by apply (Hnext _ [EvSleep 3]) | by apply (Hnext _ [EvSleep 2])].
Qed.

(** While the timeout has not elapsed, the first thing the loop does is
    to poll. *)
Lemma poll_loop_first_request (fuel : nat) (json_url : string)
    (start timeout : Z) (st : State) :
  now st - start < 1000 * timeout ->
  exists later,
    trace (snd (poll_loop world (S fuel) json_url start timeout st))
    = (later ++ poll_request json_url st :: trace st)%list.
Proof.
  intros Hlt.
  destruct (outcome (world (poll_request json_url st :: trace st)))
    as [r | cls msg] eqn:Hw;
    [| rewrite (poll_loop_network_error _ _ _ _ _ _ _ Hlt Hw); by exists []].
  rewrite (poll_loop_get fuel json_url start timeout st r Hlt Hw).
  assert (forall st2 pre,
            trace st2 = (pre ++ poll_request json_url st :: trace st)%list ->
            exists later,
              trace (snd (poll_loop world fuel json_url start timeout st2))
              = (later ++ poll_request json_url st :: trace st)%list) as Hnext.
  { intros st2 pre H2.
    destruct (poll_loop_history fuel json_url start timeout st2) as [later Hlater].
    exists (later ++ pre)%list. rewrite Hlater, H2. by rewrite <- app_assoc. }
  destruct (status_code r =? 200)%Z.
  - destruct (json_content_type r).
    + destruct (json_body r); [by exists [] |].
      rewrite time_sleep_then. by apply (Hnext _ [EvSleep 2]).
    + by apply (Hnext _ []).
  - destruct (bool_decide (status_code r ∈ [404; 403]));
      rewrite time_sleep_then;
      [by apply (Hnext _ [EvSleep 3]) | by apply (Hnext _ [EvSleep 2])].
Qed.

(** ** Polling inside [analyze_track] *)

Lemma setdefault_present (k k' : string) (x v : json) (d : dict) :
  d !! k' = Some v -> setdefault k x d !! k' = Some v.
Proof.
  intros H. unfold setdefault. destruct (d !! k) eqn:E; [exact H |].
  rewrite lookup_insert_ne; [exact H | congruence].
Qed.

Lemma setdefault_other (k k' : string) (x : json) (d : dict) :
  k ≠ k' -> setdefault k x d !! k' = d !! k'.
Proof.
  intros H. unfold setdefault. destruct (d !! k); [reflexivity |].
  by rewrite lookup_insert_ne.
Qed.

Lemma setdefault_absent (k : string) (x : json) (d : dict) :
  d !! k = None -> setdefault k x d !! k = Some x.
Proof. intros H. unfold setdefault. rewrite H. apply lookup_insert_eq. Qed.

Lemma setdefault_nonempty (k : string) (x : json) (d : dict) :
  d ≠ ∅ -> setdefault k x d ≠ ∅.
Proof.
  intros H. unfold setdefault. destruct (d !! k); [exact H |].
  apply insert_non_empty.
Qed.

Lemma analyze_track_pending
    (fuel : nat) (file_bytes : list Byte.byte) (filename : string)
    (is_instrumental : bool) (timeout : Z) (retry_csrf : bool)
    (st st1 st1' : State) (r : Response) (file_id : json) :
  analyze_track_upload cfg lib world file_bytes filename is_instrumental
                       timeout retry_csrf st = (Ok r, st1) ->
  analyze_track_check lib r st1 = (Ok (Pending file_id), st1') ->
  analyze_track cfg lib world fuel file_bytes filename is_instrumental
                timeout retry_csrf st
  = analyze_track_poll cfg lib world fuel file_id filename timeout st1'.
Proof.
  intros Hup Hck. unfold analyze_track.
  erewrite bind_ok by exact Hup. by erewrite bind_ok by exact Hck.
Qed.

Lemma analyze_track_poll_object
    (fuel : nat) (file_id : json) (filename : string) (timeout : Z)
    (st st' : State) (d : dict) :
  _poll_json_results cfg lib world fuel file_id timeout st = (Ok (JObj d), st') ->
  d ≠ ∅ ->
  analyze_track_poll cfg lib world fuel file_id filename timeout st
  = (Ok (JObj (with_job_defaults file_id filename d)), st').
Proof.
  intros Hpoll Hne. unfold analyze_track_poll.
  erewrite bind_ok by exact Hpoll.
  apply py_truthy_obj in Hne. rewrite Hne. reflexivity.
Qed.

Lemma analyze_track_poll_falsy
    (fuel : nat) (file_id : json) (filename : string) (timeout : Z)
    (st st' : State) (v : json) :
  _poll_json_results cfg lib world fuel file_id timeout st = (Ok v, st') ->
  py_truthy v = false ->
  analyze_track_poll cfg lib world fuel file_id filename timeout st
  = (Ok (_visuals_fallback cfg lib file_id filename), st').
Proof.
  intros Hpoll Hf. unfold analyze_track_poll.
  erewrite bind_ok by exact Hpoll. by rewrite Hf.
Qed.

(** C3, as the code has it.  When the polling loop of an [analyze_track]
    call returns a non-empty JSON object, the call returns that object
    with "file_id" and "filename" set by default: every key the object
    had keeps its value, no key other than those two is added, and each
    of the two is added, with the job's value, only when absent. *)
Theorem analyze_track_polled_object
    (fuel : nat) (file_bytes : list Byte.byte) (filename : string)
    (is_instrumental : bool) (timeout : Z) (retry_csrf : bool)
    (st st1 st1' st2 : State) (r : Response) (file_id : json) (d : dict) :
  analyze_track_upload cfg lib world file_bytes filename is_instrumental
                       timeout retry_csrf st = (Ok r, st1) ->
  analyze_track_check lib r st1 = (Ok (Pending file_id), st1') ->
  _poll_json_results cfg lib world fuel file_id timeout st1' = (Ok (JObj d), st2) ->
  d ≠ ∅ ->
  let d' := with_job_defaults file_id filename d in
  analyze_track cfg lib world fuel file_bytes filename is_instrumental
                timeout retry_csrf st = (Ok (JObj d'), st2)
  /\ (forall k v, d !! k = Some v -> d' !! k = Some v)
  /\ (forall k, k ≠ "file_id" -> k ≠ "filename" -> d' !! k = d !! k)
  /\ (d !! "file_id" = None -> d' !! "file_id" = Some file_id)
  /\ (d !! "filename" = None -> d' !! "filename" = Some (JStr filename)).
Proof.
  intros Hup Hck Hpoll Hne d'. subst d'. unfold with_job_defaults.
  split; [| split; [| split; [| split]]].
  - rewrite (analyze_track_pending _ _ _ _ _ _ _ _ _ _ _ Hup Hck).
    by apply analyze_track_poll_object.
  - intros k v Hk. by do 2 apply setdefault_present.
  - intros k Hk1 Hk2. by rewrite !setdefault_other.
  - intros Habs. rewrite setdefault_other by done. by apply setdefault_absent.
  - intros Habs. apply setdefault_absent.
    destruct (decide ("file_id" = "filename")) as [Heq | Hneq]; [discriminate |].
    by rewrite setdefault_other.
Qed.

(** The steps after polling touch neither the network nor the clock, and
    an exception of the polling loop passes through them. *)
Lemma analyze_track_poll_after_polling
    (fuel : nat) (file_id : json) (filename : string) (timeout : Z)
    (st : State) :
  snd (analyze_track_poll cfg lib world fuel file_id filename timeout st)
  = snd (_poll_json_results cfg lib world fuel file_id timeout st)
  /\ forall e,
       fst (_poll_json_results cfg lib world fuel file_id timeout st) = Raise e ->
       fst (analyze_track_poll cfg lib world fuel file_id filename timeout st)
       = Raise e.
Proof.
  destruct (_poll_json_results cfg lib world fuel file_id timeout st)
    as [[v | e | ] st2] eqn:Hpoll; unfold analyze_track_poll; simpl.
  - split; [| done]. erewrite bind_ok by exact Hpoll.
    destruct (py_truthy v); [| done]. by destruct v.
  - erewrite bind_raise by exact Hpoll. split; [done |]. by intros ? [= <-].
  - erewrite bind_out_of_fuel by exact Hpoll. done.
Qed.

(** A poll that fails at the network level is the last thing the loop
    does, and the loop ends with that failure. *)
Lemma poll_loop_failed_poll_is_last
    (fuel : nat) (json_url : string) (start timeout : Z) :
  forall (st : State) (later mid : list Event) (sh : dict)
         (cls msg : string),
    trace (snd (poll_loop world fuel json_url start timeout st))
    = (later ++ EvGet json_url sh None 15 :: mid ++ trace st)%list ->
    outcome (world (EvGet json_url sh None 15 :: mid ++ trace st))
    = NetError cls msg ->
    later = []
    /\ fst (poll_loop world fuel json_url start timeout st)
       = Raise (RequestException cls msg).
Proof.
  assert (forall (T l m : list Event) ev,
            T = (l ++ ev :: m ++ T)%list -> False) as Hnil.
  { intros T l m ev H. apply (f_equal length) in H.
    rewrite length_app in H. simpl in H. rewrite length_app in H. lia. }
  induction fuel as [|fuel IH]; intros st later mid sh cls msg Htr Hw.
  { simpl in Htr. by apply Hnil in Htr. }
  destruct (decide (now st - start < 1000 * timeout)) as [Hlt | Hge]; cycle 1.
  { rewrite poll_loop_expired in Htr by lia. simpl in Htr.
    by apply Hnil in Htr. }
  assert (forall pre : list Event,
            (pre ++ trace st)%list
            = (later ++ EvGet json_url sh None 15 :: mid ++ trace st)%list ->
            pre = (later ++ EvGet json_url sh None 15 :: mid)%list) as Hpre.
  { intros pre H. apply (app_inv_tail (trace st)).
    by rewrite H, <- app_assoc. }
  destruct (outcome (world (poll_request json_url st :: trace st)))
    as [r | cls' msg'] eqn:Hw0.
  - assert (forall pre, In pre [[poll_request json_url st];
                                [EvSleep 2; poll_request json_url st];
                                [EvSleep 3; poll_request json_url st]] ->
              pre ≠ (later ++ EvGet json_url sh None 15 :: mid)%list) as Hfirst.
    { intros pre Hin Heq. unfold poll_request in *.
      assert (mid = [] /\ sh = session_headers st) as [-> ->].
      { destruct Hin as [<- | [<- | [<- | []]]];
          destruct later as [|? [|? [|? ?]]]; simplify_eq/=; try done;
          destruct mid; simplify_eq/=; done. }
      simpl in Hw. congruence. }
    assert (forall st2 pre,
              In pre [[poll_request json_url st];
                      [EvSleep 2; poll_request json_url st];
                      [EvSleep 3; poll_request json_url st]] ->
              trace st2 = (pre ++ trace st)%list ->
              trace (snd (poll_loop world fuel json_url start timeout st2))
              = (later ++ EvGet json_url sh None 15 :: mid ++ trace st)%list ->
              later = []
              /\ fst (poll_loop world fuel json_url start timeout st2)
                 = Raise (RequestException cls msg)) as Hnext.
    { intros st2 pre Hin H2 Htr2.
      destruct (poll_loop_history fuel json_url start timeout st2)
        as [L HL].
      rewrite HL, H2, app_assoc in Htr2. apply Hpre in Htr2.
      apply app_eq_app in Htr2 as [l [[-> Hsplit] | [-> Hsplit]]].
      - destruct l as [|ev l].
        + exfalso. simpl in Hsplit.
          destruct Hin as [<- | [<- | [<- | []]]]; unfold poll_request in *;
            simplify_eq/=; simpl in Hw; congruence.
        + simpl in Hsplit. injection Hsplit as <- ->.
          apply (IH st2 later l sh cls msg).
          * rewrite HL, H2. by rewrite <- !app_assoc.
          * rewrite H2. by rewrite <- app_assoc in Hw.
      - exfalso.
        destruct Hin as [<- | [<- | [<- | []]]]; unfold poll_request in *;
          destruct l as [|? [|? [|? ?]]]; simplify_eq/=;
          try (destruct mid; simplify_eq/=); simpl in Hw; congruence. }
    rewrite (poll_loop_get fuel json_url start timeout st r Hlt Hw0) in Htr |- *.
    destruct (status_code r =? 200)%Z.
    + destruct (json_content_type r).
      * destruct (json_body r).
        -- exfalso. simpl in Htr.
           apply (Hpre [poll_request json_url st]) in Htr.
           eapply Hfirst; [| exact Htr]. simpl; tauto.
        -- rewrite time_sleep_then in Htr |- *.
           eapply (Hnext _ [EvSleep 2; poll_request json_url st]);
             [simpl; tauto | reflexivity | exact Htr].
      * eapply (Hnext _ [poll_request json_url st]);
          [simpl; tauto | reflexivity | exact Htr].
    + destruct (bool_decide (status_code r ∈ [404; 403]));
        rewrite time_sleep_then in Htr |- *;
        [eapply (Hnext _ [EvSleep 3; poll_request json_url st])
        | eapply (Hnext _ [EvSleep 2; poll_request json_url st])];
        try exact Htr; try reflexivity; simpl; tauto.
  - rewrite (poll_loop_network_error _ _ _ _ _ _ _ Hlt Hw0) in Htr |- *.
    simpl in Htr. apply (Hpre [poll_request json_url st]) in Htr.
    unfold poll_request in *.
    destruct later as [|? [|? ?]]; simplify_eq/=;
      try (destruct mid; simplify_eq/=).
    simpl in Hw. split; [done |]. congruence.
Qed.

(** C2, as the code has it.  Take an [analyze_track] call that enters
    polling.

    - Suppose every poll of the job's results URL is answered with an
      HTTP response and takes time, and that the truthy JSON carried by
      the answers the loop decodes (status 200, a JSON content type) is
      an object.  Then, with fuel enough for the ticks of the timeout,
      the call returns and does not raise: whatever the statuses, content
      types and undecodable bodies met on the way, it ends with the
      polled object, its two defaults set, or with the visuals fallback.
    - A network error of the first poll is not absorbed: the call raises
      it, in the state that poll left.
    - Nor is a network error of any later poll: a poll of the call that
      fails at the network level is the last event of the call, which
      raises that failure. *)
Theorem analyze_track_polling_returns
    (file_bytes : list Byte.byte) (filename : string)
    (is_instrumental : bool) (timeout : Z) (retry_csrf : bool)
    (st st1 st1' : State) (r : Response) (file_id : json) :
  analyze_track_upload cfg lib world file_bytes filename is_instrumental
                       timeout retry_csrf st = (Ok r, st1) ->
  analyze_track_check lib r st1 = (Ok (Pending file_id), st1') ->
  let json_url := results_url cfg lib file_id in
  (polls_answered world json_url ->
   polls_take_time world json_url ->
   polled_json_is_object world json_url ->
   forall fuel : nat,
     (Z.to_nat (1000 * timeout) < fuel)%nat ->
     exists v st2,
       analyze_track cfg lib world fuel file_bytes filename is_instrumental
                     timeout retry_csrf st = (Ok v, st2)
       /\ (v = _visuals_fallback cfg lib file_id filename
           \/ exists d,
                _poll_json_results cfg lib world fuel file_id timeout st1'
                = (Ok (JObj d), st2)
                /\ v = JObj (with_job_defaults file_id filename d)))
  /\ (forall (fuel : nat) (cls msg : string),
        0 < timeout ->
        outcome (world (poll_request json_url st1' :: trace st1'))
        = NetError cls msg ->
        analyze_track cfg lib world (S fuel) file_bytes filename
                      is_instrumental timeout retry_csrf st
        = (Raise (RequestException cls msg),
           after_request world (poll_request json_url st1') st1'))
  /\ (forall (fuel : nat) (later mid : list Event) (sh : dict)
             (cls msg : string),
        trace (snd (analyze_track cfg lib world fuel file_bytes filename
                                  is_instrumental timeout retry_csrf st))
        = (later ++ EvGet json_url sh None 15 :: mid ++ trace st1')%list ->
        outcome (world (EvGet json_url sh None 15 :: mid ++ trace st1'))
        = NetError cls msg ->
        later = []
        /\ fst (analyze_track cfg lib world fuel file_bytes filename
                              is_instrumental timeout retry_csrf st)
           = Raise (RequestException cls msg)).
Proof.
  intros Hup Hck json_url. split; [| split].
  - intros Hans Htime Hobj fuel Hfuel.
    rewrite (analyze_track_pending _ _ _ _ _ _ _ _ _ _ _ Hup Hck).
    destruct (poll_loop_terminates json_url (now st1') timeout
                Hans Htime (Z.to_nat (1000 * timeout)) fuel st1')
      as (v & st2 & Hloop & Hv); [lia | exact Hfuel |].
    assert (_poll_json_results cfg lib world fuel file_id timeout st1'
            = (Ok v, st2)) as Hpoll by exact Hloop.
    destruct (py_truthy v) eqn:Htruthy.
    + destruct Hv as [-> | (tr & sh & r' & Hr' & H200 & Hct & Hbody)];
        [discriminate |].
      destruct (Hobj tr sh r' v Hr' H200 Hct Hbody Htruthy) as [d ->].
      exists (JObj (with_job_defaults file_id filename d)), st2.
      split; [| right; eauto].
      apply analyze_track_poll_object; [exact Hpoll |].
      by apply py_truthy_obj.
    + exists (_visuals_fallback cfg lib file_id filename), st2.
      split; [| by left].
      by eapply analyze_track_poll_falsy.
  - intros fuel cls msg Hpos Hw.
    rewrite (analyze_track_pending _ _ _ _ _ _ _ _ _ _ _ Hup Hck).
    unfold analyze_track_poll.
    erewrite bind_raise; [reflexivity |].
    apply (poll_loop_network_error fuel json_url (now st1') timeout st1');
      [lia | exact Hw].
  - intros fuel later mid sh cls msg Htr Hw.
    rewrite (analyze_track_pending _ _ _ _ _ _ _ _ _ _ _ Hup Hck) in Htr |- *.
    destruct (analyze_track_poll_after_polling fuel file_id filename timeout st1')
      as [Hsnd Hfst].
    rewrite Hsnd in Htr.
    destruct (poll_loop_failed_poll_is_last fuel json_url (now st1') timeout
                st1' later mid sh cls msg Htr Hw) as [-> Hraise].
    split; [done |]. by apply Hfst.
Qed.

(** ** The resilient POST *)

Lemma do_post_run (url : string) (files : gmap string FilePart) (timeout : Z)
    (st : State) :
  do_post world url files timeout st
  = (net_result (world (post_request url files timeout st :: trace st)),
     after_request world (post_request url files timeout st) st).
Proof.
  unfold do_post, request, net_result, after_request, post_request.
  by destruct (outcome _).
Qed.

Lemma auth_failure_not_overload (r : Response) :
  is_auth_failure r = true -> is_overload r = false.
Proof.
  unfold is_auth_failure, is_overload. intros H.
  apply bool_decide_eq_true in H. apply bool_decide_eq_false. intros H'.
  apply list_elem_of_In in H, H'. simpl in H, H'. lia.
Qed.

(** Whatever it returns or raises, [_get_csrf] sends exactly one request,
    leaves the dicts of the upload alone, and needs no fuel. *)
Lemma get_csrf_effects (timeout : Z) (st st1 : State) (c : Result json) :
  _get_csrf cfg lib world timeout st = (c, st1) ->
  trace st1 = csrf_request cfg timeout st :: trace st
  /\ post_headers st1 = post_headers st
  /\ post_data st1 = post_data st
  /\ c ≠ OutOfFuel.
Proof.
  unfold _get_csrf, csrf_request, session_get, request.
  unfold bind at 1. destruct (outcome _) eqn:Hw; [| by intros [= <- <-]].
  unfold raise_for_status.
  destruct ((400 <=? status_code r) && (status_code r <? 500))%Z;
    [unfold bind, raise; by intros [= <- <-] |].
  destruct ((500 <=? status_code r) && (status_code r <? 600))%Z;
    [unfold bind, raise; by intros [= <- <-] |].
  unfold bind at 1. unfold ret at 1.
  destruct (json_body r) as [data|];
    [| unfold bind, raise; by intros [= <- <-]].
  unfold bind, py_get, py_keys, ret, raise, modify.
  destruct data; try by intros [= <- <-].
  destruct (py_truthy (default JNull (m !! "csrf_token"))) eqn:E1; simpl;
    rewrite ?E1; simpl; [by intros [= <- <-] |].
  destruct (py_truthy (default JNull (m !! "csrfToken"))) eqn:E2; simpl;
    rewrite ?E2; simpl; by intros [= <- <-].
Qed.

(** The last step of [_post_with_optional_retry], the backoff on the
    current response [r]. *)
Lemma backoff_step (url : string) (files : gmap string FilePart)
    (timeout : Z) (r : Response) (st : State) :
  let run :=
    (if is_overload r then time_sleep 2 ;; do_post world url files timeout
     else ret r) st in
  exists backoff : list Event,
    trace (snd run) = (backoff ++ trace st)%list
    /\ (is_overload r = false -> backoff = [] /\ run = (Ok r, st))
    /\ (is_overload r = true ->
        exists again,
          backoff = [again; EvSleep 2]
          /\ is_post_to url files timeout again
          /\ fst run = net_result (world (trace (snd run))))
    /\ (count is_get backoff = 0)%nat
    /\ (count is_sleep backoff <= 1)%nat
    /\ (count is_post backoff <= 1)%nat.
Proof.
  destruct (is_overload r) eqn:Hov.
  - rewrite time_sleep_then, do_post_run. simpl.
    eexists [_; _]. split; [reflexivity |].
    split; [done |]. split; [| unfold count; simpl; lia].
    intros _. eexists. split; [reflexivity |].
    split; [| reflexivity]. unfold is_post_to, post_request. eauto.
  - exists []. simpl. split; [reflexivity |].
    split; [done |]. split; [done |]. unfold count; simpl; lia.
Qed.

(** The middle step of [_post_with_optional_retry], the refresh after an
    authorization failure [r0]. *)
Lemma refresh_step (url : string) (files : gmap string FilePart)
    (timeout : Z) (r0 : Response) (st0 : State) :
  try_except
    (do new_csrf <- _get_csrf cfg lib world (Z.min 20 timeout);
     modify (fun st =>
               set_post_headers
                 (update (_browser_like_post_headers cfg new_csrf)
                         (post_headers st)) st) ;;
     modify (fun st =>
               set_post_data
                 (<["csrf_token" := new_csrf]> (post_data st)) st) ;;
     do_post world url files timeout)
    (fun _ => ret r0) st0
  = match _get_csrf cfg lib world (Z.min 20 timeout) st0 with
    | (Ok tok, st1) =>
        let retried := post_request url files timeout (refreshed cfg tok st1) in
        (match outcome (world (retried :: trace st1)) with
         | NetResponse r1 => Ok r1
         | NetError _ _ => Ok r0
         end,
         after_request world retried (refreshed cfg tok st1))
    | (Raise e, st1) => (Ok r0, st1)
    | (OutOfFuel, st1) => (OutOfFuel, st1)
    end.
Proof.
  unfold try_except. unfold bind at 1.
  destruct (_get_csrf cfg lib world (Z.min 20 timeout) st0) as [[tok | e |] st1];
    try reflexivity.
  unfold bind, modify. rewrite do_post_run. unfold net_result. simpl.
  by destruct (outcome _).
Qed.

Lemma refreshed_carries_token (tok : json) (st : State) :
  post_headers (refreshed cfg tok st) !! "X-CSRFToken" = Some tok
  /\ post_data (refreshed cfg tok st) !! "csrf_token" = Some tok.
Proof.
  split.
  - unfold refreshed, update. simpl. apply lookup_union_Some_l. reflexivity.
  - unfold refreshed. simpl. apply lookup_insert_eq.
Qed.

(** C1. Take a call of [_post_with_optional_retry] whose first POST is
    answered with [r0].  What the call does afterwards is a refresh part
    followed by a backoff part, around a current response.

    - Refresh.  Unless [r0] has status 401 or 403 and retry is enabled,
      nothing happens and [r0] stays current.  Otherwise exactly one
      token request is sent, with timeout min(20, timeout), and
      [_get_csrf] either raises or yields a token.  If it raises, the
      exception is swallowed and the call returns [r0].  If it yields a
      token, exactly one POST follows, with that token in
      its X-CSRFToken header and in the csrf_token field of its body; its
      response becomes current, and if it raises instead, the exception
      is swallowed and the call returns [r0].
    - Backoff.  If the current response has a status among 429, 500, 502,
      503 and 504, the call sleeps 2 seconds, sends one more POST and
      returns or raises what that POST does; otherwise it returns the
      current response.
    - Each part runs at most once: after the first POST there is at most
      one token request, at most one sleep and at most two POSTs. *)
Theorem post_with_optional_retry_contract
    (url : string) (files : gmap string FilePart) (timeout : Z)
    (retry_csrf : bool) (st : State) (r0 : Response) :
  outcome (world (post_request url files timeout st :: trace st)) = NetResponse r0 ->
  let st0 := after_request world (post_request url files timeout st) st in
  let run := _post_with_optional_retry cfg lib world url files timeout retry_csrf st in
  let get := _get_csrf cfg lib world (Z.min 20 timeout) st0 in
  let token_request := csrf_request cfg (Z.min 20 timeout) st0 in
  exists (current : Response) (refresh backoff : list Event),
    trace (snd run) = (backoff ++ refresh ++ trace st0)%list
    /\ (is_auth_failure r0 && retry_csrf = false -> refresh = [] /\ current = r0)
    /\ (is_auth_failure r0 && retry_csrf = true ->
        fst get ≠ OutOfFuel
        /\ (forall e, fst get = Raise e ->
           refresh = [token_request] /\ current = r0 /\ fst run = Ok r0)
        /\ (forall tok, fst get = Ok tok ->
            exists retried,
              refresh = [retried; token_request]
              /\ is_post_with_token url files timeout tok retried
              /\ (forall r1,
                    outcome (world (refresh ++ trace st0)%list) = NetResponse r1 ->
                    current = r1)
              /\ (forall cls msg,
                    outcome (world (refresh ++ trace st0)%list) = NetError cls msg ->
                    current = r0 /\ fst run = Ok r0)))
    /\ (is_overload current = false -> backoff = [] /\ fst run = Ok current)
    /\ (is_overload current = true ->
        exists again,
          backoff = [again; EvSleep 2]
          /\ is_post_to url files timeout again
          /\ fst run = net_result (world (trace (snd run))))
    /\ (count is_get (backoff ++ refresh) <= 1)%nat
    /\ (count is_sleep (backoff ++ refresh) <= 1)%nat
    /\ (count is_post (backoff ++ refresh) <= 2)%nat.
Proof.
  intros Hw st0 run get token_request.
  assert (do_post world url files timeout st = (Ok r0, st0)) as Hp0.
  { rewrite do_post_run. unfold net_result. by rewrite Hw. }
  assert (is_auth_failure r0 = true -> is_overload r0 = false) as Hnov
      by apply auth_failure_not_overload.
  assert (run = _post_with_optional_retry cfg lib world url files timeout
                  retry_csrf st) as Hrun by reflexivity.
  clearbody run. unfold _post_with_optional_retry in Hrun.
  erewrite bind_ok in Hrun by exact Hp0. unfold bind at 1 in Hrun.
  destruct (is_auth_failure r0 && retry_csrf) eqn:Hauth.
  - rewrite refresh_step in Hrun. subst get.
    destruct (_get_csrf cfg lib world (Z.min 20 timeout) st0) as [c st1] eqn:Hget.
    destruct (get_csrf_effects _ _ _ _ Hget) as (Htr & _ & _ & Hfuel).
    fold token_request in Htr.
    apply andb_true_iff in Hauth as [Hauth _]. specialize (Hnov Hauth).
    destruct c as [tok | e |]; [| | done].
    + cbv zeta in Hrun.
      set (retried := post_request url files timeout (refreshed cfg tok st1)) in *.
      set (st2 := after_request world retried (refreshed cfg tok st1)) in *.
      assert (trace st2 = [retried; token_request] ++ trace st0)%list as Htr2.
      { simpl. by rewrite Htr. }
      assert (retried :: trace st1 = [retried; token_request] ++ trace st0)%list
        as Hhist by (simpl; by rewrite Htr).
      assert (is_post_with_token url files timeout tok retried) as Htok.
      { destruct (refreshed_carries_token tok st1) as [Hh Hd].
        unfold is_post_with_token, retried, post_request. eauto 10. }
      destruct (outcome (world (retried :: trace st1))) as [r1 | cls msg] eqn:Hw1;
        rewrite Hhist in Hw1.
      * destruct (backoff_step url files timeout r1 st2)
          as (backoff & Hb1 & Hb2 & Hb3 & Hb4 & Hb5 & Hb6).
        cbv zeta in Hb1, Hb2, Hb3. rewrite <- Hrun in Hb1, Hb2, Hb3.
        exists r1, [retried; token_request], backoff.
        split; [by rewrite Hb1, Htr2 |].
        split; [done |].
        split.
        { intros _. split; [done |]. split; [done |].
          intros tok' [= <-]. exists retried. split; [done |]. split; [done |].
          rewrite Hw1. split; [by intros r1' [= <-] | done]. }
        split; [intros Hov; destruct (Hb2 Hov) as [-> ->]; done |].
        split; [exact Hb3 |].
        unfold count in *. rewrite !List.filter_app, !length_app. simpl. lia.
      * simpl in Hrun. rewrite Hnov in Hrun. unfold ret in Hrun. subst run.
        exists r0, [retried; token_request], [].
        split; [exact Htr2 |].
        split; [done |].
        split.
        { intros _. split; [done |]. split; [done |].
          intros tok' [= <-]. exists retried. split; [done |]. split; [done |].
          rewrite Hw1. split; [done | by intros cls' msg' _]. }
        split; [done |].
        split; [by rewrite Hnov |].
        destruct Htok as (sh & data & hdrs & -> & _).
        unfold count; simpl. lia.
    + simpl in Hrun. rewrite Hnov in Hrun. unfold ret in Hrun. subst run.
      exists r0, [token_request], [].
      split; [exact Htr |].
      split; [done |].
      split; [intros _; split; [done |]; split; [done | by intros tok [=]] |].
      split; [done |].
      split; [by rewrite Hnov |].
      unfold count; simpl. lia.
  - unfold ret in Hrun at 1.
    destruct (backoff_step url files timeout r0 st0)
      as (backoff & Hb1 & Hb2 & Hb3 & Hb4 & Hb5 & Hb6).
    cbv zeta in Hb1, Hb2, Hb3. rewrite <- Hrun in Hb1, Hb2, Hb3.
    exists r0, [], backoff.
    split; [exact Hb1 |].
    split; [done |].
    split; [done |].
    split; [intros Hov; destruct (Hb2 Hov) as [-> ->]; done |].
    split; [exact Hb3 |].
    rewrite app_nil_r. lia.
Qed.

(** A results URL that keeps serving 200 with another content type is
    polled, request after request and with nothing in between, until the
    clock has passed the timeout; polling then yields [None]. *)
Lemma poll_loop_non_json_200_run (json_url : string) (start timeout : Z) :
  polls_non_json_200 world json_url ->
  polls_take_time world json_url ->
  forall (n fuel : nat) (st : State),
    start + 1000 * timeout - now st <= Z.of_nat n ->
    (n < fuel)%nat ->
    exists polls st_end,
      poll_loop world fuel json_url start timeout st = (Ok JNull, st_end)
      /\ trace st_end = (polls ++ trace st)%list
      /\ Forall (is_poll_request json_url) polls
      /\ (now st - start < 1000 * timeout ->
          exists later, polls = (later ++ [poll_request json_url st])%list)
      /\ 1000 * timeout <= now st_end - start.
Proof.
  intros Hhtml Htime n.
  induction n as [|n IH]; intros fuel st Hleft Hfuel;
    (destruct fuel as [|fuel]; [lia |]);
    (destruct (decide (now st - start < 1000 * timeout)) as [Hlt | Hge];
     [| exists [], st; rewrite poll_loop_expired by lia;
        split; [done |]; split; [done |]; split; [constructor |];
        split; [intros; lia | lia]]).
  - lia.
  - destruct (Hhtml (trace st) (session_headers st)) as (r & Hr & H200 & Hct).
    pose proof (Htime (trace st) (session_headers st)) as Hpos.
    rewrite (poll_loop_get fuel json_url start timeout st r Hlt Hr).
    rewrite H200, Hct. simpl.
    destruct (IH fuel (after_request world (poll_request json_url st) st))
      as (polls & st_end & Hloop & Htr & Hpolls & _ & Hnow).
    + simpl. unfold poll_request. lia.
    + lia.
    + exists (polls ++ [poll_request json_url st])%list, st_end.
      split; [exact Hloop |].
      split; [rewrite Htr; simpl; by rewrite <- app_assoc |].
      split; [| split; [intros _; by exists polls | exact Hnow]].
      apply Forall_app. split; [exact Hpolls |].
      constructor; [| constructor]. by exists (session_headers st).
Qed.

(** C9. Take an iteration of the polling loop whose request is answered
    with status 200 and a content type that does not start with
    "application/json", and let [st'] be the state that request leaves:
    the history of [st] with the request added, the clock of [st] moved
    by the duration of the request.

    - If the timeout has elapsed at [st'], the loop returns [None] in
      [st'] itself: it has neither returned the response nor slept.
    - If it has not, the loop at once polls again from [st']: in the
      history of the run the next request directly follows the first, with
      no sleep between them.
    - When every poll of the URL is answered this way (and takes time),
      the whole run, given fuel enough for the ticks left, is a sequence
      of polls and nothing else, ends with [None], and ends only once the
      timeout has elapsed. *)
Theorem poll_loop_non_json_200_no_backoff
    (fuel : nat) (json_url : string) (start timeout : Z)
    (st : State) (r : Response) :
  now st - start < 1000 * timeout ->
  outcome (world (poll_request json_url st :: trace st)) = NetResponse r ->
  status_code r = 200 ->
  json_content_type r = false ->
  let st' := after_request world (poll_request json_url st) st in
  (1000 * timeout <= now st' - start ->
   poll_loop world (S (S fuel)) json_url start timeout st = (Ok JNull, st'))
  /\ (now st' - start < 1000 * timeout ->
      exists later,
        trace (snd (poll_loop world (S (S fuel)) json_url start timeout st))
        = (later ++ [poll_request json_url st'; poll_request json_url st]
                 ++ trace st)%list)
  /\ (polls_non_json_200 world json_url ->
      polls_take_time world json_url ->
      forall fuel' : nat,
        (Z.to_nat (start + 1000 * timeout - now st) < fuel')%nat ->
        exists polls st_end,
          poll_loop world fuel' json_url start timeout st = (Ok JNull, st_end)
          /\ trace st_end
             = (polls ++ poll_request json_url st :: trace st)%list
          /\ Forall (is_poll_request json_url) polls
          /\ 1000 * timeout <= now st_end - start).
Proof.
  intros Hlt Hw H200 Hct st'.
  assert (poll_loop world (S (S fuel)) json_url start timeout st
          = poll_loop world (S fuel) json_url start timeout st') as Hstep.
  { rewrite (poll_loop_get (S fuel) json_url start timeout st r Hlt Hw).
    by rewrite H200, Hct. }
  split; [| split].
  - intros Hge. rewrite Hstep. by apply poll_loop_expired.
  - intros Hlt'. rewrite Hstep.
    destruct (poll_loop_first_request fuel json_url start timeout st' Hlt')
      as [later Hlater].
    exists later. exact Hlater.
  - intros Hhtml Htime fuel' Hfuel.
    destruct (poll_loop_non_json_200_run json_url start timeout Hhtml Htime
                (Z.to_nat (start + 1000 * timeout - now st)) fuel' st)
      as (polls & st_end & Hloop & Htr & Hpolls & Hfirst & Hnow);
      [lia | exact Hfuel |].
    destruct (Hfirst Hlt) as [later ->].
    exists later, st_end. split; [exact Hloop |].
    split; [rewrite Htr; by rewrite <- app_assoc |].
    split; [| exact Hnow].
    by apply Forall_app in Hpolls as [Hpolls _].
Qed.

(** * Further properties of the client and of the handler *)

(** ** Composing runs *)

Lemma preserves_ret {A} (R : State -> State -> Prop) (a : A) :
  (forall st, R st st) -> preserves R (ret a).
Proof. intros Hrefl st. apply Hrefl. Qed.

Lemma preserves_raise {A} (R : State -> State -> Prop) (e : exn) :
  (forall st, R st st) -> preserves R (@raise A e).
Proof. intros Hrefl st. apply Hrefl. Qed.

Lemma preserves_bind {A B} (R : State -> State -> Prop) (c : M A) (k : A -> M B) :
  (forall st1 st2 st3, R st1 st2 -> R st2 st3 -> R st1 st3) ->
  preserves R c -> (forall a, preserves R (k a)) -> preserves R (bind c k).
Proof.
  intros Htrans Hc Hk st. unfold bind. specialize (Hc st).
  destruct (c st) as [[a | e |] st']; simpl in *; try exact Hc.
  eapply Htrans; [exact Hc | apply Hk].
Qed.

Lemma preserves_try_except {A} (R : State -> State -> Prop)
    (body : M A) (handler : exn -> M A) :
  (forall st1 st2 st3, R st1 st2 -> R st2 st3 -> R st1 st3) ->
  preserves R body -> (forall e, preserves R (handler e)) ->
  preserves R (try_except body handler).
Proof.
  intros Htrans Hb Hh st. unfold try_except. specialize (Hb st).
  destruct (body st) as [[a | e |] st']; simpl in *; try exact Hb.
  eapply Htrans; [exact Hb | apply Hh].
Qed.

Lemma grows_by_refl (P : Event -> Prop) (st : State) : grows_by P st st.
Proof. exists []. split; [reflexivity | constructor]. Qed.

Lemma grows_by_same (P : Event -> Prop) (st st' : State) :
  trace st' = trace st -> grows_by P st st'.
Proof. intros H. exists []. split; [exact H | constructor]. Qed.

Lemma grows_by_trans (P : Event -> Prop) (st1 st2 st3 : State) :
  grows_by P st1 st2 -> grows_by P st2 st3 -> grows_by P st1 st3.
Proof.
  intros (new1 & H1 & HP1) (new2 & H2 & HP2). exists (new2 ++ new1)%list.
  split; [by rewrite H2, H1, app_assoc | by apply Forall_app].
Qed.

Lemma grows_by_one (P : Event -> Prop) (ev : Event) (st st' : State) :
  P ev -> trace st' = ev :: trace st -> grows_by P st st'.
Proof. intros HP Htr. exists [ev]. split; [exact Htr | by repeat constructor]. Qed.

Lemma grows_by_weaken (P Q : Event -> Prop) (st st' : State) :
  (forall ev, P ev -> Q ev) -> grows_by P st st' -> grows_by Q st st'.
Proof.
  intros HPQ (new & Htr & HP). exists new. split; [exact Htr |].
  eapply Forall_impl; [exact HP | exact HPQ].
Qed.

(** ** Sessions and tokens *)

(** X1. The MIME type put on the uploaded file is never empty: it is the
    guess of [mimetypes] when there is a non-empty one, and "audio/mpeg"
    when there is none or an empty one. *)
Theorem guess_mimetype_never_empty (filename : string) :
  _guess_mimetype lib filename <> ""
  /\ (forall mt, guess_type lib filename = Some mt -> mt <> "" ->
               _guess_mimetype lib filename = mt)
  /\ (guess_type lib filename = None \/ guess_type lib filename = Some "" ->
      _guess_mimetype lib filename = "audio/mpeg").
Proof.
  unfold _guess_mimetype.
  destruct (guess_type lib filename) as [[| ch mt] |]; simpl.
  - repeat split; try done. intros mt' [= <-] Hne. done.
  - repeat split; try done.
    + by intros mt' [= <-] _.
    + by intros [[=] | [=]].
  - repeat split; done.
Qed.

(** X2. A new session carries the service's own User-Agent, Accept,
    Accept-Language and Connection headers, whatever the defaults of the
    library say under those names, and keeps every other default of the
    library; nothing of an earlier session survives, and nothing else of
    the state changes. *)
Theorem new_session_headers (st : State) :
  let st' := snd (_new_session lib st) in
  Forall (fun kv => session_headers st' !! kv.1 = Some kv.2) own_session_headers
  /\ (forall k, k ∉ own_session_headers.*1 ->
               session_headers st' !! k = session_default_headers lib !! k)
  /\ trace st' = trace st /\ now st' = now st /\ same_upload_dicts st st'.
Proof.
  simpl. unfold update. split; [| split; [| done]].
  - repeat constructor; simpl.
    + rewrite lookup_union_r by (vm_compute; reflexivity).
      apply lookup_union_Some_l. vm_compute. reflexivity.
    + rewrite lookup_union_r by (vm_compute; reflexivity).
      apply lookup_union_Some_l. vm_compute. reflexivity.
    + rewrite lookup_union_r by (vm_compute; reflexivity).
      apply lookup_union_Some_l. vm_compute. reflexivity.
    + apply lookup_union_Some_l. vm_compute. reflexivity.
  - intros k Hk. simpl in Hk.
    rewrite !not_elem_of_cons in Hk. destruct Hk as (H1 & H2 & H3 & H4 & _).
    rewrite lookup_union_r by (by apply lookup_singleton_ne).
    apply lookup_union_r. unfold BASE_HEADERS. simpl.
    rewrite !lookup_insert_ne by done. apply lookup_empty.
Qed.

Lemma get_csrf_run (timeout : Z) (st st1 : State) (c : Result json) :
  _get_csrf cfg lib world timeout st = (c, st1) ->
  trace st1 = csrf_request cfg timeout st :: trace st
  /\ now st1 = now st + elapsed (world (csrf_request cfg timeout st :: trace st))
  /\ same_upload_dicts st st1
  /\ c <> OutOfFuel
  /\ (forall e, c = Raise e -> session_headers st1 = session_headers st)
  /\ (forall tok, c = Ok tok ->
        py_truthy tok = true
        /\ session_headers st1 = <["X-CSRFToken" := tok]> (session_headers st)).
Proof.
  unfold _get_csrf, csrf_request, session_get, request, same_upload_dicts.
  unfold bind at 1. destruct (outcome _) eqn:Hw; [| by intros [= <- <-]].
  unfold raise_for_status.
  destruct ((400 <=? status_code r) && (status_code r <? 500))%Z;
    [unfold bind, raise; by intros [= <- <-] |].
  destruct ((500 <=? status_code r) && (status_code r <? 600))%Z;
    [unfold bind, raise; by intros [= <- <-] |].
  unfold bind at 1. unfold ret at 1.
  destruct (json_body r) as [data|];
    [| unfold bind, raise; by intros [= <- <-]].
  unfold bind, py_get, py_keys, ret, raise, modify.
  destruct data; try by intros [= <- <-].
  destruct (py_truthy (default JNull (m !! "csrf_token"))) eqn:E1; simpl;
    rewrite ?E1; simpl.
  { intros [= <- <-]. simpl. do 5 (split; [done |]). by intros tok [= <-]. }
  destruct (py_truthy (default JNull (m !! "csrfToken"))) eqn:E2; simpl;
    rewrite ?E2; simpl.
  { intros [= <- <-]. simpl. do 5 (split; [done |]). by intros tok [= <-]. }
  by intros [= <- <-].
Qed.

(** X3. Whatever the token endpoint answers, [_get_csrf] sends exactly
    one request, the GET of {BASE}/csrf-token, and leaves the dicts of
    the upload alone.  When it raises, the headers of the session are
    what they were; when it returns a token, the token is truthy and the
    only change to the session is that it holds the token under
    X-CSRFToken. *)
Theorem get_csrf_session_effects (timeout : Z) (st : State) :
  let run := _get_csrf cfg lib world timeout st in
  trace (snd run) = csrf_request cfg timeout st :: trace st
  /\ same_upload_dicts st (snd run)
  /\ (forall e, fst run = Raise e ->
        session_headers (snd run) = session_headers st)
  /\ (forall tok, fst run = Ok tok ->
        py_truthy tok = true
        /\ session_headers (snd run)
           = <["X-CSRFToken" := tok]> (session_headers st)).
Proof.
  intros run. subst run.
  destruct (_get_csrf cfg lib world timeout st) as [c st1] eqn:Hrun.
  destruct (get_csrf_run _ _ _ _ Hrun) as (Htr & _ & Hd & _ & He & Hok).
  simpl. split; [exact Htr |]. split; [exact Hd |]. split; [exact He | exact Hok].
Qed.

(** X4. A token response with a status outside 400..599 whose body is
    JSON but not an object makes [_get_csrf] raise the [AttributeError]
    of the first [get], not a [RuntimeError]; the session keeps its
    headers. *)
Theorem get_csrf_non_object_body (timeout : Z) (st : State) (r : Response) (v : json) :
  outcome (world (csrf_request cfg timeout st :: trace st)) = NetResponse r ->
  is_http_error r = false ->
  json_body r = Some v ->
  (forall d, v <> JObj d) ->
  fst (_get_csrf cfg lib world timeout st) = Raise (no_get_error v)
  /\ session_headers (snd (_get_csrf cfg lib world timeout st)) = session_headers st.
Proof.
  intros Hw He Hbody Hv. unfold _get_csrf.
  erewrite bind_ok by (apply session_get_response; exact Hw).
  erewrite bind_ok by (by apply raise_for_status_ok).
  rewrite Hbody. unfold bind at 1. unfold ret at 1.
  destruct v; try (split; reflexivity). by destruct (Hv m).
Qed.

(** X5. A network failure of the token request comes out of [_get_csrf]
    as it is, after that one request. *)
Theorem get_csrf_network_error (timeout : Z) (st : State) (cls msg : string) :
  outcome (world (csrf_request cfg timeout st :: trace st)) = NetError cls msg ->
  _get_csrf cfg lib world timeout st
  = (Raise (RequestException cls msg),
     after_request world (csrf_request cfg timeout st) st).
Proof.
  intros Hw. unfold _get_csrf.
  by erewrite bind_raise by (apply session_get_error; exact Hw).
Qed.

(** ** The resilient POST, as a whole *)

Lemma upload_step_refl url files timeout st : upload_step cfg url files timeout st st.
Proof. repeat split; try done. apply grows_by_refl. Qed.

Lemma upload_step_trans url files timeout st1 st2 st3 :
  upload_step cfg url files timeout st1 st2 ->
  upload_step cfg url files timeout st2 st3 ->
  upload_step cfg url files timeout st1 st3.
Proof.
  intros (Hg1 & Hd1 & Hs1 & Hh1) (Hg2 & Hd2 & Hs2 & Hh2).
  split; [by eapply grows_by_trans |].
  split; [intros k Hk; by rewrite Hd2, Hd1 |].
  split; [intros k Hk; by rewrite Hs2, Hs1 |].
  intros k Hk. by rewrite Hh2, Hh1.
Qed.

Lemma do_post_upload_step url files timeout :
  preserves (upload_step cfg url files timeout) (do_post world url files timeout).
Proof.
  intros st. rewrite do_post_run. simpl.
  split; [| done].
  eapply grows_by_one; [| reflexivity].
  left. unfold is_post_to, post_request. eauto.
Qed.

Lemma get_csrf_upload_step url files timeout t :
  preserves (upload_step cfg url files timeout) (_get_csrf cfg lib world t).
Proof.
  intros st. destruct (_get_csrf cfg lib world t st) as [c st1] eqn:Hrun.
  destruct (get_csrf_run _ _ _ _ Hrun) as (Htr & _ & [Hh Hd] & _ & He & Hok).
  simpl. split; [| split; [| split]].
  - eapply grows_by_one; [| exact Htr].
    right; left. unfold is_token_request, csrf_request. eauto.
  - intros k _. by rewrite Hd.
  - intros k Hk. destruct c as [tok | e |].
    + destruct (Hok tok eq_refl) as [_ ->]. by rewrite lookup_insert_ne.
    + by rewrite (He e eq_refl).
    + by destruct (get_csrf_run _ _ _ _ Hrun) as (_ & _ & _ & Hfuel & _).
  - intros k _. by rewrite Hh.
Qed.

Lemma retry_rest_upload_step url files timeout retry_csrf (r : Response) :
  preserves (upload_step cfg url files timeout)
    (do r <- (if is_auth_failure r && retry_csrf then
                try_except
                  (do new_csrf <- _get_csrf cfg lib world (Z.min 20 timeout);
                   modify (fun st =>
                             set_post_headers
                               (update (_browser_like_post_headers cfg new_csrf)
                                       (post_headers st)) st) ;;
                   modify (fun st =>
                             set_post_data
                               (<["csrf_token" := new_csrf]> (post_data st)) st) ;;
                   do_post world url files timeout)
                  (fun _ => ret r)
              else ret r);
     if is_overload r then
       time_sleep 2 ;; do_post world url files timeout
     else ret r).
Proof.
  pose proof (upload_step_trans url files timeout) as Htrans.
  pose proof (upload_step_refl url files timeout) as Hrefl.
  apply preserves_bind; [exact Htrans | |].
  - destruct (is_auth_failure r && retry_csrf); [| by apply preserves_ret].
    apply preserves_try_except; [exact Htrans | | intros; by apply preserves_ret].
    apply preserves_bind; [exact Htrans | apply get_csrf_upload_step |].
    intros tok. apply preserves_bind; [exact Htrans | |].
    { intros st. simpl. split; [by apply grows_by_same |].
      split; [done |]. split; [done |].
      intros k Hk. unfold update. apply lookup_union_r.
      unfold browser_header_names in Hk. rewrite !not_elem_of_cons in Hk.
      destruct Hk as (H1 & H2 & H3 & H4 & H5 & _).
      unfold _browser_like_post_headers. simpl.
      rewrite !lookup_insert_ne by done. apply lookup_empty. }
    intros _. apply preserves_bind; [exact Htrans | | intros; apply do_post_upload_step].
    intros st. split; [by apply grows_by_same |].
    split; [| done]. intros k Hk.
    cbn [snd modify set_post_data post_data]. by apply lookup_insert_ne.
  - intros r'. destruct (is_overload r'); [| by apply preserves_ret].
    apply preserves_bind; [exact Htrans | | intros; apply do_post_upload_step].
    intros st. simpl. split; [| done].
    eapply grows_by_one; [| reflexivity]. by right; right.
Qed.

Lemma post_retry_upload_step url files timeout retry_csrf :
  preserves (upload_step cfg url files timeout)
    (_post_with_optional_retry cfg lib world url files timeout retry_csrf).
Proof.
  apply (preserves_bind (upload_step cfg url files timeout)).
  - apply upload_step_trans.
  - apply do_post_upload_step.
  - intros r. apply retry_rest_upload_step.
Qed.

(** X6. Whatever the host answers, [_post_with_optional_retry] adds to
    the history only POSTs of the same files to the same URL with the
    same timeout, token requests and sleeps of 2 seconds; of the body it
    changes at most the csrf_token field, of the session at most the
    X-CSRFToken header, and of the headers of the upload at most the five
    browser headers. *)
Theorem post_with_optional_retry_invariants
    (url : string) (files : gmap string FilePart) (timeout : Z)
    (retry_csrf : bool) (st : State) :
  let st' := snd (_post_with_optional_retry cfg lib world url files timeout
                                            retry_csrf st) in
  grows_by (is_upload_event cfg url files timeout) st st'
  /\ agree_except "csrf_token" (post_data st) (post_data st')
  /\ agree_except "X-CSRFToken" (session_headers st) (session_headers st')
  /\ (forall k, k ∉ browser_header_names ->
               post_headers st' !! k = post_headers st !! k).
Proof. apply post_retry_upload_step. Qed.

Lemma plain_upload_step_trans url files timeout st1 st2 st3 :
  plain_upload_step url files timeout st1 st2 ->
  plain_upload_step url files timeout st2 st3 ->
  plain_upload_step url files timeout st1 st3.
Proof.
  intros (Hg1 & [Hh1 Hd1] & Hs1) (Hg2 & [Hh2 Hd2] & Hs2).
  split; [by eapply grows_by_trans |].
  split; [split; congruence | congruence].
Qed.

Lemma do_post_plain_upload_step url files timeout :
  preserves (plain_upload_step url files timeout) (do_post world url files timeout).
Proof.
  intros st. rewrite do_post_run. simpl.
  split; [| done].
  eapply grows_by_one; [| reflexivity].
  left. unfold is_post_to, post_request. eauto.
Qed.

(** X7. With the token retry disabled, [_post_with_optional_retry] never
    asks for a token: it adds to the history only POSTs of the same files
    to the same URL and sleeps of 2 seconds, and leaves the session and
    both dicts of the upload as they were, whatever the host answers. *)
Theorem post_without_csrf_retry
    (url : string) (files : gmap string FilePart) (timeout : Z) (st : State) :
  let st' := snd (_post_with_optional_retry cfg lib world url files timeout
                                            false st) in
  grows_by (fun ev => is_post_to url files timeout ev \/ ev = EvSleep 2) st st'
  /\ same_upload_dicts st st'
  /\ session_headers st' = session_headers st.
Proof.
  pose proof (plain_upload_step_trans url files timeout) as Htrans.
  assert (forall st, plain_upload_step url files timeout st st) as Hrefl.
  { intros st0. split; [apply grows_by_refl | done]. }
  apply (preserves_bind (plain_upload_step url files timeout));
    [exact Htrans | apply do_post_plain_upload_step |].
  intros r. rewrite andb_false_r.
  apply preserves_bind; [exact Htrans | by apply preserves_ret |].
  intros r'. destruct (is_overload r'); [| by apply preserves_ret].
  apply preserves_bind;
    [exact Htrans | | intros; apply do_post_plain_upload_step].
  intros st0. split; [| done].
  eapply grows_by_one; [| reflexivity]. by right.
Qed.

(** X8. A network failure of the first POST is not retried: it comes out
    of [_post_with_optional_retry] as it is, after that one request, with
    retry enabled or not. *)
Theorem post_network_error_not_retried
    (url : string) (files : gmap string FilePart) (timeout : Z)
    (retry_csrf : bool) (st : State) (cls msg : string) :
  outcome (world (post_request url files timeout st :: trace st)) = NetError cls msg ->
  _post_with_optional_retry cfg lib world url files timeout retry_csrf st
  = (Raise (RequestException cls msg),
     after_request world (post_request url files timeout st) st).
Proof.
  intros Hw. unfold _post_with_optional_retry.
  erewrite bind_raise; [reflexivity |].
  rewrite do_post_run. unfold net_result. by rewrite Hw.
Qed.

(** ** The upload phase of [analyze_track] *)

Lemma post_retry_starts_with_post
    (url : string) (files : gmap string FilePart) (timeout : Z)
    (retry_csrf : bool) (st : State) :
  exists later,
    trace (snd (_post_with_optional_retry cfg lib world url files timeout
                                          retry_csrf st))
    = (later ++ post_request url files timeout st :: trace st)%list.
Proof.
  unfold _post_with_optional_retry. unfold bind at 1. rewrite do_post_run.
  destruct (net_result _) as [r0 | e |]; [| by exists [] | by exists []].
  destruct (retry_rest_upload_step url files timeout retry_csrf r0
              (after_request world (post_request url files timeout st) st))
    as ((new & Htr & _) & _).
  exists new. exact Htr.
Qed.

Lemma analyze_track_upload_after_token
    (file_bytes : list Byte.byte) (filename : string)
    (is_instrumental : bool) (timeout : Z) (retry_csrf : bool)
    (st st1 : State) (csrf : json) :
  _get_csrf cfg lib world (Z.min 20 timeout) (snd (_new_session lib st))
  = (Ok csrf, st1) ->
  analyze_track_upload cfg lib world file_bytes filename is_instrumental
                       timeout retry_csrf st
  = _post_with_optional_retry cfg lib world (BASE cfg +:+ UPLOAD_PATH cfg)
      {[ "file" := mkFilePart filename file_bytes (_guess_mimetype lib filename) ]}
      timeout retry_csrf
      (set_post_data (upload_data csrf is_instrumental)
         (set_post_headers (_browser_like_post_headers cfg csrf) st1)).
Proof.
  intros Hget. unfold analyze_track_upload.
  unfold bind at 1. unfold _new_session at 1, modify at 1.
  erewrite bind_ok by exact Hget.
  destruct is_instrumental; reflexivity.
Qed.

(** X9. Once the token is obtained, the upload is the next request of
    [analyze_track]: a POST to {BASE}{UPLOAD_PATH} of the one file part
    (name, bytes, guessed MIME type), with the given timeout, carrying
    the token in the session's X-CSRFToken header, in its own
    X-CSRFToken header and in the csrf_token field of a body that holds
    the instrumental flag twice, as "true" or "false". *)
Theorem analyze_track_upload_first_post
    (file_bytes : list Byte.byte) (filename : string)
    (is_instrumental : bool) (timeout : Z) (retry_csrf : bool)
    (st st1 : State) (csrf : json) :
  _get_csrf cfg lib world (Z.min 20 timeout) (snd (_new_session lib st))
  = (Ok csrf, st1) ->
  (exists later,
     trace (snd (analyze_track_upload cfg lib world file_bytes filename
                                      is_instrumental timeout retry_csrf st))
     = (later
          ++ [ EvPost (BASE cfg +:+ UPLOAD_PATH cfg) (session_headers st1)
                 {[ "file" := mkFilePart filename file_bytes
                                         (_guess_mimetype lib filename) ]}
                 (upload_data csrf is_instrumental)
                 (_browser_like_post_headers cfg csrf) timeout;
               csrf_request cfg (Z.min 20 timeout) (snd (_new_session lib st)) ]
          ++ trace st)%list)
  /\ session_headers st1 !! "X-CSRFToken" = Some csrf
  /\ _browser_like_post_headers cfg csrf !! "X-CSRFToken" = Some csrf
  /\ upload_data csrf is_instrumental !! "csrf_token" = Some csrf
  /\ upload_data csrf is_instrumental !! "is_instrumental"
     = upload_data csrf is_instrumental !! "instrumental".
Proof.
  intros Hget.
  destruct (get_csrf_run _ _ _ _ Hget) as (Htr & _ & _ & _ & _ & Hok).
  destruct (Hok csrf eq_refl) as [_ Hsess].
  split; [| split; [| split; [| split]]].
  - rewrite (analyze_track_upload_after_token _ _ _ _ _ _ _ _ Hget).
    destruct (post_retry_starts_with_post (BASE cfg +:+ UPLOAD_PATH cfg)
                {[ "file" := mkFilePart filename file_bytes
                                        (_guess_mimetype lib filename) ]}
                timeout retry_csrf
                (set_post_data (upload_data csrf is_instrumental)
                   (set_post_headers (_browser_like_post_headers cfg csrf) st1)))
      as [later Hlater].
    exists later. rewrite Hlater. unfold post_request. simpl. by rewrite Htr.
  - rewrite Hsess. apply lookup_insert_eq.
  - reflexivity.
  - reflexivity.
  - reflexivity.
Qed.

(** X10. When the token cannot be obtained, nothing is uploaded:
    [analyze_track] raises what [_get_csrf] raised, and the token request
    is the only request it has sent. *)
Theorem analyze_track_token_failure
    (fuel : nat) (file_bytes : list Byte.byte) (filename : string)
    (is_instrumental : bool) (timeout : Z) (retry_csrf : bool)
    (st st1 : State) (e : exn) :
  _get_csrf cfg lib world (Z.min 20 timeout) (snd (_new_session lib st))
  = (Raise e, st1) ->
  analyze_track cfg lib world fuel file_bytes filename is_instrumental
                timeout retry_csrf st = (Raise e, st1)
  /\ trace st1
     = csrf_request cfg (Z.min 20 timeout) (snd (_new_session lib st)) :: trace st.
Proof.
  intros Hget.
  destruct (get_csrf_run _ _ _ _ Hget) as (Htr & _).
  split; [| exact Htr].
  unfold analyze_track, analyze_track_upload.
  erewrite bind_raise; [reflexivity |].
  unfold bind at 1. unfold _new_session at 1, modify at 1.
  by erewrite bind_raise by exact Hget.
Qed.

(** Characters of a concatenation. *)
Lemma py_len_app (a b : string) : py_len (a +:+ b) = (py_len a + py_len b)%nat.
Proof.
  induction a as [|ch a IH]; [reflexivity |].
  change (String ch a +:+ b) with (String ch (a +:+ b)). simpl.
  destruct (continues_character ch); lia.
Qed.

(** A slice [s[:n]] has [n] characters, or all of [s] when [s] has fewer. *)
Lemma py_len_prefix (n : nat) (s : string) :
  py_len (py_prefix n s) = Nat.min n (py_len s).
Proof.
  revert n. induction s as [|ch s IH]; intros n; simpl; [lia |].
  destruct (continues_character ch) eqn:E; simpl.
  - rewrite E. rewrite IH. lia.
  - destruct n as [|n]; simpl; [done |]. rewrite E, IH. lia.
Qed.


(** A slice [s[:n]] is how [s] starts. *)
Lemma py_prefix_starts (n : nat) (s : string) :
  exists rest, s = py_prefix n s +:+ rest.
Proof.
  revert n. induction s as [|ch s IH]; intros n; simpl; [by exists "" |].
  destruct (continues_character ch).
  - destruct (IH n) as [rest Hrest]. exists rest.
    change (String ch s = String ch (py_prefix n s +:+ rest)). by rewrite <- Hrest.
  - destruct n as [|n]; [by exists (String ch s) |].
    destruct (IH n) as [rest Hrest]. exists rest.
    change (String ch s = String ch (py_prefix n s +:+ rest)). by rewrite <- Hrest.
Qed.

(** X11. An upload that ends in any status other than 200 is fatal,
    whatever its body holds: [analyze_track] raises a [RuntimeError] that
    names the status and shows the text of the response, whole when it
    has at most 4000 characters and cut to its first 4000 characters
    followed by an ellipsis when it has more, so never more than 4001
    characters; it raises in the state the upload left, so nothing is
    polled. *)
Theorem analyze_track_upload_failed
    (fuel : nat) (file_bytes : list Byte.byte) (filename : string)
    (is_instrumental : bool) (timeout : Z) (retry_csrf : bool)
    (st st1 : State) (r : Response) :
  analyze_track_upload cfg lib world file_bytes filename is_instrumental
                       timeout retry_csrf st = (Ok r, st1) ->
  status_code r <> 200 ->
  analyze_track cfg lib world fuel file_bytes filename is_instrumental
                timeout retry_csrf st = (Raise (upload_failed_error r), st1)
  /\ exists shown,
       upload_failed_error r
       = RuntimeError ("Upload failed (" +:+ pretty (status_code r) +:+ "): "
                         +:+ shown)
       /\ (py_len shown <= 4001)%nat
       /\ ((py_len (text r) <= 4000)%nat -> shown = text r)
       /\ ((4000 < py_len (text r))%nat ->
           exists cut rest,
             shown = cut +:+ "…"
             /\ py_len cut = 4000%nat
             /\ text r = cut +:+ rest).
Proof.
  intros Hup Hstatus. split.
  - unfold analyze_track. erewrite bind_ok by exact Hup.
    erewrite bind_raise; [reflexivity |].
    unfold analyze_track_check.
    assert ((status_code r =? 200)%Z = false) as -> by lia.
    reflexivity.
  - unfold upload_failed_error.
    assert (py_len "…" = 1%nat) as Hdots by reflexivity.
    destruct (4000 <? py_len (text r))%nat eqn:Hlen.
    + eexists. split; [reflexivity |].
      apply Nat.ltb_lt in Hlen.
      pose proof (py_len_prefix 4000 (text r)) as Hcut.
      split; [rewrite py_len_app, Hdots; lia |].
      split; [lia |]. intros _.
      destruct (py_prefix_starts 4000 (text r)) as [rest Hrest].
      exists (py_prefix 4000 (text r)), rest.
      split; [done |]. split; [lia | exact Hrest].
    + eexists. split; [reflexivity |].
      apply Nat.ltb_ge in Hlen.
      split; [lia |]. split; [done | lia].
Qed.


(** ** Polling, as a whole *)

(** X13. With a timeout of zero or less the polling loop is not entered:
    [_poll_json_results] returns [None] at once, without a request or a
    sleep and with the clock where it was. *)
Theorem poll_json_results_no_time
    (fuel : nat) (file_id : json) (timeout : Z) (st : State) :
  timeout <= 0 ->
  _poll_json_results cfg lib world (S fuel) file_id timeout st = (Ok JNull, st).
Proof.
  intros Htimeout.
  unfold _poll_json_results, bind, time_time, gets. simpl.
  unfold bind, time_time, gets.
  by assert ((now st - now st <? 1000 * timeout)%Z = false) as -> by lia.
Qed.

Lemma poll_step_trans json_url st1 st2 st3 :
  poll_step json_url st1 st2 -> poll_step json_url st2 st3 ->
  poll_step json_url st1 st3.
Proof.
  intros (Hg1 & Hs1 & [Hh1 Hd1]) (Hg2 & Hs2 & [Hh2 Hd2]).
  split; [by eapply grows_by_trans |].
  split; [congruence | split; congruence].
Qed.

Lemma poll_step_refl json_url st : poll_step json_url st st.
Proof. split; [apply grows_by_refl | done]. Qed.

Lemma sleep_poll_step json_url secs :
  secs = 2 \/ secs = 3 -> preserves (poll_step json_url) (time_sleep secs).
Proof.
  intros Hsecs st. split; [| done].
  eapply grows_by_one; [| reflexivity].
  right. destruct Hsecs as [-> | ->]; auto.
Qed.

Lemma poll_loop_poll_step (fuel : nat) (json_url : string) (start timeout : Z) :
  preserves (poll_step json_url) (poll_loop world fuel json_url start timeout).
Proof.
  pose proof (poll_step_trans json_url) as Htrans.
  pose proof (poll_step_refl json_url) as Hrefl.
  induction fuel as [|fuel IH]; [intros st; apply Hrefl |].
  simpl. apply preserves_bind; [exact Htrans | intros st; apply Hrefl |].
  intros t. destruct (t - start <? 1000 * timeout)%Z; [| by apply preserves_ret].
  apply preserves_bind; [exact Htrans | |].
  - intros st. unfold session_get, request.
    assert (poll_step json_url st
              (set_trace (EvGet json_url (session_headers st) None 15 :: trace st)
                 (now st + elapsed (world (EvGet json_url (session_headers st)
                                                None 15 :: trace st))) st)) as Hstep.
    { split; [| done]. eapply grows_by_one; [| reflexivity]. left. eauto. }
    by destruct (outcome _).
  - intros r. destruct (status_code r =? 200)%Z.
    + destruct (String.prefix _ _); [| exact IH].
      destruct (json_body r); [by apply preserves_ret |].
      apply preserves_bind; [exact Htrans | apply sleep_poll_step; auto | done].
    + destruct (bool_decide _);
        (apply preserves_bind; [exact Htrans | apply sleep_poll_step; auto | done]).
Qed.

(** X14. Whatever the host answers and however long it lasts, polling
    adds to the history only GETs of the job's results URL, sent with no
    headers of their own and a timeout of 15 seconds, and sleeps of 2 or
    3 seconds; it sends no POST and leaves the session and the dicts of
    the upload as they were. *)
Theorem poll_json_results_invariants
    (fuel : nat) (file_id : json) (timeout : Z) (st : State) :
  let st' := snd (_poll_json_results cfg lib world fuel file_id timeout st) in
  grows_by (is_poll_event (results_url cfg lib file_id)) st st'
  /\ count is_post (trace st') = count is_post (trace st)
  /\ session_headers st' = session_headers st
  /\ same_upload_dicts st st'.
Proof.
  intros st'.
  assert (poll_step (results_url cfg lib file_id) st st') as (Hg & Hs & Hd).
  { apply (poll_loop_poll_step fuel (results_url cfg lib file_id) (now st) timeout). }
  split; [exact Hg |]. split; [| done].
  destruct Hg as (new & -> & Hnew). unfold count.
  rewrite List.filter_app, length_app.
  assert (List.filter is_post new = []) as ->; [| reflexivity].
  induction Hnew as [|ev new Hev _ IH]; [reflexivity |].
  simpl. rewrite IH.
  by destruct Hev as [[sh ->] | [-> | ->]].
Qed.

(** X15. Take an iteration of the polling loop whose request is answered
    with a status other than 200, or with a 200 that announces JSON and
    cannot be decoded.  The loop then sleeps once, 3 seconds after a 404
    or a 403 and 2 seconds after anything else, and goes back to its
    condition: the sleep directly follows the request in the history of
    the run; if the timeout has elapsed after the sleep, the run ends
    there with [None]; if not, the next event is the next poll. *)
Theorem poll_loop_backoff
    (fuel : nat) (json_url : string) (start timeout : Z)
    (st : State) (r : Response) :
  now st - start < 1000 * timeout ->
  outcome (world (poll_request json_url st :: trace st)) = NetResponse r ->
  status_code r <> 200 \/ (json_content_type r = true /\ json_body r = None) ->
  let secs := if bool_decide (status_code r ∈ [404; 403]) then 3 else 2 in
  let st' := after_sleep secs
               (after_request world (poll_request json_url st) st) in
  (exists later,
      trace (snd (poll_loop world (S (S fuel)) json_url start timeout st))
      = (later ++ [EvSleep secs; poll_request json_url st] ++ trace st)%list)
  /\ (1000 * timeout <= now st' - start ->
      poll_loop world (S (S fuel)) json_url start timeout st = (Ok JNull, st'))
  /\ (now st' - start < 1000 * timeout ->
      exists later,
        trace (snd (poll_loop world (S (S fuel)) json_url start timeout st))
        = (later ++ [poll_request json_url st'; EvSleep secs;
                     poll_request json_url st] ++ trace st)%list).
Proof.
  intros Hlt Hw Hcase secs st'.
  assert (poll_loop world (S (S fuel)) json_url start timeout st
          = poll_loop world (S fuel) json_url start timeout st') as Hstep.
  { rewrite (poll_loop_get (S fuel) json_url start timeout st r Hlt Hw).
    subst st' secs.
    destruct (status_code r =? 200)%Z eqn:H200.
    - apply Z.eqb_eq in H200. destruct Hcase as [Hne | [Hct Hbody]]; [done |].
      rewrite Hct, Hbody, H200. by rewrite time_sleep_then.
    - destruct (bool_decide (status_code r ∈ [404; 403]));
        by rewrite time_sleep_then. }
  rewrite Hstep. split; [| split].
  - destruct (poll_loop_history (S fuel) json_url start timeout st')
      as [later Hlater].
    exists later. exact Hlater.
  - intros Hge. by apply poll_loop_expired.
  - intros Hlt'.
    destruct (poll_loop_first_request fuel json_url start timeout st' Hlt')
      as [later Hlater].
    exists later. exact Hlater.
Qed.

(** X16. Polling ends with the first 200 that announces JSON and can be
    decoded, whatever the value: when that value is falsy (null, an
    empty object, ...) [analyze_track] does not wait for the timeout but
    returns the visuals fallback at once, after that one request. *)
Theorem analyze_track_poll_falsy_json
    (fuel : nat) (file_id : json) (filename : string) (timeout : Z)
    (st : State) (r : Response) (v : json) :
  0 < timeout ->
  outcome (world (poll_request (results_url cfg lib file_id) st :: trace st))
  = NetResponse r ->
  status_code r = 200 ->
  json_content_type r = true ->
  json_body r = Some v ->
  py_truthy v = false ->
  _poll_json_results cfg lib world (S fuel) file_id timeout st
  = (Ok v, after_request world (poll_request (results_url cfg lib file_id) st) st)
  /\ analyze_track_poll cfg lib world (S fuel) file_id filename timeout st
     = (Ok (_visuals_fallback cfg lib file_id filename),
        after_request world (poll_request (results_url cfg lib file_id) st) st).
Proof.
  intros Htimeout Hw H200 Hct Hbody Hfalsy.
  assert (_poll_json_results cfg lib world (S fuel) file_id timeout st
          = (Ok v, after_request world
                     (poll_request (results_url cfg lib file_id) st) st)) as Hpoll.
  { unfold _poll_json_results. unfold bind at 1, time_time, gets.
    rewrite (poll_loop_get fuel _ (now st) timeout st r) by (lia || exact Hw).
    by rewrite H200, Hct, Hbody. }
  split; [exact Hpoll |].
  by apply (analyze_track_poll_falsy _ _ _ _ _ _ v).
Qed.

(** X17. When polling returns truthy JSON that is not an object (a list,
    a string, a number), [analyze_track] does not return it: setting the
    first default raises an [AttributeError]. *)
Theorem analyze_track_poll_non_object
    (fuel : nat) (file_id : json) (filename : string) (timeout : Z)
    (st st' : State) (v : json) :
  _poll_json_results cfg lib world fuel file_id timeout st = (Ok v, st') ->
  py_truthy v = true ->
  (forall d, v <> JObj d) ->
  analyze_track_poll cfg lib world fuel file_id filename timeout st
  = (Raise (no_setdefault_error v), st').
Proof.
  intros Hpoll Htruthy Hv. unfold analyze_track_poll.
  erewrite bind_ok by exact Hpoll. rewrite Htruthy.
  destruct v; try reflexivity. by destruct (Hv m).
Qed.

Lemma setdefault_is_Some (k : string) (x : json) (d : dict) :
  is_Some (setdefault k x d !! k).
Proof.
  destruct (d !! k) as [own |] eqn:Hown.
  - exists own. by apply setdefault_present.
  - exists x. by apply setdefault_absent.
Qed.

(** X18. Whatever [analyze_track] returns after polling, be it polled
    results or the fallback, is an object that has a "file_id" and a
    "filename". *)
Theorem analyze_track_poll_result_keys
    (fuel : nat) (file_id : json) (filename : string) (timeout : Z)
    (st st' : State) (v : json) :
  analyze_track_poll cfg lib world fuel file_id filename timeout st = (Ok v, st') ->
  exists m : dict,
    v = JObj m /\ is_Some (m !! "file_id") /\ is_Some (m !! "filename").
Proof.
  unfold analyze_track_poll. unfold bind at 1.
  destruct (_poll_json_results cfg lib world fuel file_id timeout st)
    as [[jr | e |] st1] eqn:Hpoll; try discriminate.
  destruct (py_truthy jr) eqn:Htruthy.
  - destruct jr; try discriminate. unfold bind, py_setdefault, ret.
    intros [= <- <-]. eexists. split; [reflexivity |]. split.
    + destruct (setdefault_is_Some "file_id" file_id m) as [own Hown].
      exists own. by apply setdefault_present.
    + apply setdefault_is_Some.
  - intros [= <- <-]. eexists. split; [reflexivity |].
    split; eexists; vm_compute; reflexivity.
Qed.

Lemma poll_loop_result (fuel : nat) (json_url : string) (start timeout : Z) :
  forall (st st' : State) (v : json),
    poll_loop world fuel json_url start timeout st = (Ok v, st') ->
    (v = JNull /\ 1000 * timeout <= now st' - start)
    \/ (exists r,
          outcome (world (trace st')) = NetResponse r
          /\ is_get <$> head (trace st') = Some true
          /\ status_code r = 200
          /\ json_content_type r = true
          /\ json_body r = Some v).
Proof.
  induction fuel as [|fuel IH]; intros st st' v; [discriminate |].
  simpl. unfold bind at 1, time_time, gets.
  destruct (now st - start <? 1000 * timeout)%Z eqn:Hlt.
  - unfold bind at 1, session_get, request.
    destruct (outcome (world (EvGet json_url (session_headers st) None 15
                                :: trace st))) as [r | cls msg] eqn:Hw;
      [| discriminate].
    destruct (status_code r =? 200)%Z eqn:H200.
    + fold (json_content_type r).
      destruct (json_content_type r) eqn:Hct; [| apply IH].
      destruct (json_body r) as [body |] eqn:Hbody.
      * intros [= <- <-]. right. exists r. simpl.
        rewrite Hw. apply Z.eqb_eq in H200. done.
      * rewrite time_sleep_then. apply IH.
    + destruct (bool_decide (status_code r ∈ [404; 403]));
        rewrite time_sleep_then; apply IH.
  - intros [= <- <-]. left. split; [reflexivity | lia].
Qed.

(** X21. Polling does not give up early: when [_poll_json_results]
    returns, either it returns [None] and the clock has run for the
    whole timeout since polling started, or it returns the JSON of its
    last request, a GET answered 200 with a content type that announces
    JSON. *)
Theorem poll_json_results_result
    (fuel : nat) (file_id : json) (timeout : Z) (st st' : State) (v : json) :
  _poll_json_results cfg lib world fuel file_id timeout st = (Ok v, st') ->
  (v = JNull /\ 1000 * timeout <= now st' - now st)
  \/ (exists r,
        outcome (world (trace st')) = NetResponse r
        /\ is_get <$> head (trace st') = Some true
        /\ status_code r = 200
        /\ json_content_type r = true
        /\ json_body r = Some v).
Proof.
  intros Hpoll.
  apply (poll_loop_result fuel (results_url cfg lib file_id) (now st) timeout st).
  exact Hpoll.
Qed.

(** ** The whole call *)

Lemma analyze_track_check_pure (r : Response) (st : State) :
  snd (analyze_track_check lib r st) = st.
Proof.
  unfold analyze_track_check, bind, py_get, raise, ret.
  destruct (negb (status_code r =? 200)%Z); [reflexivity |].
  destruct (json_body r) as [resp |]; [| reflexivity].
  destruct resp; try reflexivity. simpl.
  destruct (py_truthy (default JNull (m !! "results"))); [reflexivity |].
  by destruct (negb (py_truthy (default JNull (m !! "file_id")))).
Qed.

Lemma upload_event_is_client_event (files : gmap string FilePart) (timeout : Z)
    (ev : Event) :
  is_upload_event cfg (BASE cfg +:+ UPLOAD_PATH cfg) files timeout ev ->
  is_client_event cfg lib ev.
Proof.
  intros [(sh & data & hdrs & ->) | [Htoken | ->]].
  - right; left. eauto 10.
  - by left.
  - by right; right; right; left.
Qed.

Lemma poll_event_is_client_event (file_id : json) (ev : Event) :
  is_poll_event (results_url cfg lib file_id) ev -> is_client_event cfg lib ev.
Proof.
  intros [[sh ->] | [-> | ->]].
  - right; right; left. eauto.
  - by right; right; right; left.
  - by right; right; right; right.
Qed.

(** X19. Whatever the host answers, a whole [analyze_track] call adds to
    the history only token requests to {BASE}/csrf-token, POSTs to
    {BASE}{UPLOAD_PATH}, GETs of the results URL of a job, and sleeps of
    2 or 3 seconds: it talks to no other address. *)
Theorem analyze_track_client_events
    (fuel : nat) (file_bytes : list Byte.byte) (filename : string)
    (is_instrumental : bool) (timeout : Z) (retry_csrf : bool) (st : State) :
  grows_by (is_client_event cfg lib) st
    (snd (analyze_track cfg lib world fuel file_bytes filename is_instrumental
                        timeout retry_csrf st)).
Proof.
  set (R := grows_by (is_client_event cfg lib)).
  assert (forall st1 st2 st3, R st1 st2 -> R st2 st3 -> R st1 st3) as Htrans
      by apply grows_by_trans.
  assert (forall st0, R st0 st0) as Hrefl by apply grows_by_refl.
  assert (forall f, (forall st0, trace (f st0) = trace st0) ->
                    preserves R (modify f)) as Hmodify.
  { intros f Hf st0. apply grows_by_same. apply Hf. }
  revert st. change (preserves R (analyze_track cfg lib world fuel file_bytes
                                    filename is_instrumental timeout retry_csrf)).
  apply preserves_bind; [exact Htrans | |].
  - apply preserves_bind; [exact Htrans | by apply Hmodify |]. intros _.
    apply preserves_bind; [exact Htrans | |].
    { intros st. destruct (_get_csrf cfg lib world (Z.min 20 timeout) st)
        as [c st1] eqn:Hrun.
      destruct (get_csrf_run _ _ _ _ Hrun) as (Htr & _).
      eapply grows_by_one; [| exact Htr].
      left. unfold is_token_request, csrf_request. eauto. }
    intros csrf.
    apply preserves_bind; [exact Htrans | by apply Hmodify |]. intros _.
    apply preserves_bind; [exact Htrans | by apply Hmodify |]. intros _.
    intros st. eapply grows_by_weaken; [apply upload_event_is_client_event |].
    apply post_retry_upload_step.
  - intros r. apply preserves_bind; [exact Htrans | |].
    { intros st. rewrite analyze_track_check_pure. apply Hrefl. }
    intros [resp | file_id]; [by apply preserves_ret |].
    apply preserves_bind; [exact Htrans | |].
    { intros st. eapply grows_by_weaken; [apply poll_event_is_client_event |].
      apply (poll_loop_poll_step fuel (results_url cfg lib file_id) (now st) timeout). }
    intros jr. destruct (py_truthy jr); [| by apply preserves_ret].
    destruct jr; try (intros st; apply Hrefl).
Qed.

(** ** The handler *)



End Properties.

(** * The properties at work on the sample hosts *)

(** [analyze_track_cached_results] on a host that answers the upload with
    cached results. *)
Lemma analyze_track_cached_results_witness :
  analyze_track Sample.cfg Sample.lib Sample.cached_host 0
                Sample.audio "a.mp3" false 180 true Sample.st0
  = (Ok (Sample.obj [("results", Sample.obj [("tempo", JInt 120)])]),
     snd (analyze_track_upload Sample.cfg Sample.lib Sample.cached_host
                               Sample.audio "a.mp3" false 180 true Sample.st0)).
Proof.
  apply (analyze_track_cached_results
           Sample.cfg Sample.lib Sample.cached_host 0 Sample.audio "a.mp3"
           false 180 true Sample.st0 _ Sample.cached_response _
           (Sample.obj [("tempo", JInt 120)])).
  - vm_compute. reflexivity.
  - reflexivity.
  - reflexivity.
  - vm_compute. reflexivity.
  - reflexivity.
Defined.

(** [analyze_track_requires_file_id] on a host that answers the upload
    with an empty object. *)
Lemma analyze_track_requires_file_id_witness :
  analyze_track Sample.cfg Sample.lib Sample.no_job_host 0
                Sample.audio "a.mp3" false 180 true Sample.st0
  = (Raise (RuntimeError "No file_id in upload response: <dict>"),
     snd (analyze_track_upload Sample.cfg Sample.lib Sample.no_job_host
                               Sample.audio "a.mp3" false 180 true Sample.st0)).
Proof.
  apply (analyze_track_requires_file_id
           Sample.cfg Sample.lib Sample.no_job_host 0 Sample.audio "a.mp3"
           false 180 true Sample.st0 _ Sample.no_job_response (Sample.obj [])).
  - vm_compute. reflexivity.
  - reflexivity.
  - reflexivity.
  - intros v Hv. vm_compute in Hv. discriminate Hv.
  - vm_compute. reflexivity.
Defined.

(** [analyze_track_falsy_file_id] on a host that answers the upload with
    an empty string for a file id. *)
Lemma analyze_track_falsy_file_id_witness :
  analyze_track Sample.cfg Sample.lib Sample.falsy_job_host 0
                Sample.audio "a.mp3" false 180 true Sample.st0
  = (Raise (RuntimeError "No file_id in upload response: <dict>"),
     snd (analyze_track_upload Sample.cfg Sample.lib Sample.falsy_job_host
                               Sample.audio "a.mp3" false 180 true Sample.st0)).
Proof.
  apply (analyze_track_falsy_file_id
           Sample.cfg Sample.lib Sample.falsy_job_host 0 Sample.audio "a.mp3"
           false 180 true Sample.st0 _ Sample.falsy_job_response
           (Sample.obj [("file_id", JStr "")]) (JStr "")).
  - vm_compute. reflexivity.
  - reflexivity.
  - reflexivity.
  - intros v Hv. vm_compute in Hv. discriminate Hv.
  - vm_compute. reflexivity.
  - reflexivity.
Defined.

(** [get_csrf_contract] on a host whose token endpoint answers 200 with a
    token under "csrf_token". *)
Lemma get_csrf_contract_witness :
  fst (_get_csrf Sample.cfg Sample.lib Sample.pending_host 20 Sample.st0)
  = Ok (JStr "tok")
  /\ session_headers
       (snd (_get_csrf Sample.cfg Sample.lib Sample.pending_host 20 Sample.st0))
     !! "X-CSRFToken" = Some (JStr "tok").
Proof.
  destruct (get_csrf_contract Sample.cfg Sample.lib Sample.pending_host 20
              Sample.st0 Sample.token_response eq_refl) as [_ Hok].
  destruct (Hok eq_refl) as [Htoken _].
  apply (Htoken (list_to_map [("csrf_token", JStr "tok")]) (JStr "tok")).
  - reflexivity.
  - split; [vm_compute; reflexivity | reflexivity].
Defined.

(** C6 fails as stated: the body of this token response parses as JSON
    and holds a truthy value under "csrf_token", yet [_get_csrf] does not
    return it, because the status of the response is 503. *)
Lemma get_csrf_error_status_counterexample :
  outcome (Sample.failed_token_host
             [csrf_request Sample.cfg 20 Sample.st0])
  = NetResponse Sample.failed_token_response
  /\ json_body Sample.failed_token_response
     = Some (Sample.obj [("csrf_token", JStr "tok")])
  /\ truthy_at (list_to_map [("csrf_token", JStr "tok")]) "csrf_token" (JStr "tok")
  /\ fst (_get_csrf Sample.cfg Sample.lib Sample.failed_token_host 20 Sample.st0)
     = Raise (HTTPError "503 Server Error:  for url: ").
Proof.
  repeat split; vm_compute; reflexivity.
Qed.

(** [poll_loop_non_json_200_no_backoff] on a host whose results URL
    serves a page of HTML, with one second to poll: the second request
    directly follows the first, and the run that ends with [None] is
    made of polls alone. *)
Lemma poll_loop_non_json_200_no_backoff_witness :
  (exists later,
      trace (snd (poll_loop Sample.html_host 2 Sample.results_url_abc 0 1
                            Sample.st0))
      = (later ++ [EvGet Sample.results_url_abc ∅ None 15;
                   EvGet Sample.results_url_abc ∅ None 15])%list)
  /\ (exists polls st_end,
        poll_loop Sample.html_host (S (Z.to_nat 1000)) Sample.results_url_abc
                  0 1 Sample.st0
        = (Ok JNull, st_end)
        /\ trace st_end
           = (polls ++ [EvGet Sample.results_url_abc ∅ None 15])%list
        /\ Forall (is_poll_request Sample.results_url_abc) polls
        /\ 1000 <= now st_end).
Proof.
  destruct (poll_loop_non_json_200_no_backoff
              Sample.html_host 0 Sample.results_url_abc 0 1 Sample.st0
              Sample.html_response)
    as (_ & Hnext & Hrun).
  - vm_compute. reflexivity.
  - reflexivity.
  - reflexivity.
  - vm_compute. reflexivity.
  - split.
    + apply Hnext. vm_compute. reflexivity.
    + destruct (Hrun (fun tr sh => ex_intro _ Sample.html_response
                                     (conj eq_refl (conj eq_refl eq_refl)))
                     (fun tr sh => eq_refl)
                     (S (Z.to_nat 1000)))
        as (polls & st_end & Hloop & Htr & Hpolls & Hnow).
      * apply Nat.lt_succ_diag_r.
      * exists polls, st_end.
        split; [exact Hloop |]. split; [exact Htr |].
        split; [exact Hpolls |]. simpl in Hnow. lia.
Defined.

(** [analyze_track_polled_object] on a host whose results are there at
    the first poll. *)
Lemma analyze_track_polled_object_witness :
  fst (analyze_track Sample.cfg Sample.lib Sample.polled_host 5
                     Sample.audio "a.mp3" false 180 true Sample.st0)
  = Ok (JObj (with_job_defaults (JStr "abc") "a.mp3"
                                (list_to_map [("tempo", JInt 120)]))).
Proof.
  pose (st1 := snd (analyze_track_upload Sample.cfg Sample.lib Sample.polled_host
                      Sample.audio "a.mp3" false 180 true Sample.st0)).
  pose (st2 := snd (_poll_json_results Sample.cfg Sample.lib Sample.polled_host
                      5 (JStr "abc") 180 st1)).
  destruct (analyze_track_polled_object
              Sample.cfg Sample.lib Sample.polled_host 5 Sample.audio "a.mp3"
              false 180 true Sample.st0 st1 st1 st2 Sample.job_response
              (JStr "abc") (list_to_map [("tempo", JInt 120)])) as [Hrun _].
  - vm_compute. reflexivity.
  - vm_compute. reflexivity.
  - vm_compute. reflexivity.
  - apply py_truthy_obj. vm_compute. reflexivity.
  - rewrite Hrun. reflexivity.
Defined.

(** C3 fails as stated: here the polling loop returns a parsed JSON
    result, the empty object, and [analyze_track] returns the visuals
    fallback instead of that object with its two defaults. *)
Lemma analyze_track_empty_polled_object_counterexample :
  fst (analyze_track_upload Sample.cfg Sample.lib Sample.empty_object_host
         Sample.audio "a.mp3" false 180 true Sample.st0)
  = Ok Sample.job_response
  /\ fst (analyze_track_check Sample.lib Sample.job_response
            (snd (analyze_track_upload Sample.cfg Sample.lib Sample.empty_object_host
                    Sample.audio "a.mp3" false 180 true Sample.st0)))
     = Ok (Pending (JStr "abc"))
  /\ fst (_poll_json_results Sample.cfg Sample.lib Sample.empty_object_host
            5 (JStr "abc") 180
            (snd (analyze_track_upload Sample.cfg Sample.lib Sample.empty_object_host
                    Sample.audio "a.mp3" false 180 true Sample.st0)))
     = Ok (JObj ∅)
  /\ fst (analyze_track Sample.cfg Sample.lib Sample.empty_object_host 5
            Sample.audio "a.mp3" false 180 true Sample.st0)
     = Ok (_visuals_fallback Sample.cfg Sample.lib (JStr "abc") "a.mp3")
  /\ fst (analyze_track Sample.cfg Sample.lib Sample.empty_object_host 5
            Sample.audio "a.mp3" false 180 true Sample.st0)
     ≠ Ok (JObj (with_job_defaults (JStr "abc") "a.mp3" ∅)).
Proof.
  split; [vm_compute; reflexivity |].
  split; [vm_compute; reflexivity |].
  split; [vm_compute; reflexivity |].
  split; [vm_compute; reflexivity |].
  intros H.
  apply (f_equal (fun res => match res with
                             | Ok (JObj m) => m !! "status"
                             | _ => None
                             end)) in H.
  vm_compute in H. discriminate H.
Qed.

(** [analyze_track_polling_returns] on a host that accepts the job and
    answers every poll 404 with a JSON list, with one second to poll: the
    call returns. *)
Lemma analyze_track_polling_returns_witness :
  exists v st2,
    analyze_track Sample.cfg Sample.lib Sample.missing_list_host 1001
                  Sample.audio "a.mp3" false 1 true Sample.st0
    = (Ok v, st2)
    /\ (v = _visuals_fallback Sample.cfg Sample.lib (JStr "abc") "a.mp3"
        \/ exists d, v = JObj (with_job_defaults (JStr "abc") "a.mp3" d)).
Proof.
  pose (st1 := snd (analyze_track_upload Sample.cfg Sample.lib
                      Sample.missing_list_host
                      Sample.audio "a.mp3" false 1 true Sample.st0)).
  destruct (analyze_track_polling_returns
              Sample.cfg Sample.lib Sample.missing_list_host Sample.audio "a.mp3"
              false 1 true Sample.st0 st1 st1 Sample.job_response (JStr "abc"))
    as (Hreturns & _).
  - vm_compute. reflexivity.
  - vm_compute. reflexivity.
  - destruct (Hreturns
                (fun tr sh => ex_intro _ Sample.missing_list_response eq_refl)
                (fun tr sh => eq_refl)) with (fuel := 1001%nat)
      as (v & st2 & Hrun & Hv).
    + intros tr sh r v Hr H200 _ _ _. simpl in Hr. injection Hr as <-.
      discriminate H200.
    + vm_compute. lia.
    + exists v, st2. split; [exact Hrun |].
      destruct Hv as [-> | (d & _ & ->)]; [by left | right; by exists d].
Defined.

(** C2 fails as stated: here polling is entered, the first poll fails to
    connect, and [analyze_track] raises that failure. *)
Lemma analyze_track_poll_network_error_counterexample :
  fst (analyze_track_upload Sample.cfg Sample.lib Sample.unreachable_host
         Sample.audio "a.mp3" false 180 true Sample.st0)
  = Ok Sample.job_response
  /\ fst (analyze_track_check Sample.lib Sample.job_response
            (snd (analyze_track_upload Sample.cfg Sample.lib Sample.unreachable_host
                    Sample.audio "a.mp3" false 180 true Sample.st0)))
     = Ok (Pending (JStr "abc"))
  /\ fst (analyze_track Sample.cfg Sample.lib Sample.unreachable_host 5
            Sample.audio "a.mp3" false 180 true Sample.st0)
     = Raise (RequestException "ConnectTimeout" "connect timed out").
Proof.
  repeat split; vm_compute; reflexivity.
Qed.

(** Both retries in sequence, by computation: the upload is refused with
    a 403, a fresh token is fetched, the retried upload meets a 503, and
    after two seconds the third upload is accepted. *)
Example post_retries_in_sequence :
  fst (_post_with_optional_retry Sample.cfg Sample.lib Sample.flaky_host
         Sample.upload_url Sample.upload_files 180 true Sample.st_upload)
  = Ok Sample.job_response
  /\ event_kind
       <$> rev (trace (snd (_post_with_optional_retry
                              Sample.cfg Sample.lib Sample.flaky_host
                              Sample.upload_url Sample.upload_files 180 true
                              Sample.st_upload)))
     = ["POST"; "GET"; "POST"; "sleep"; "POST"].
Proof. split; vm_compute; reflexivity. Qed.

(** [post_with_optional_retry_contract] on that host: the refresh part is
    a token request and a POST, the backoff part a sleep and a POST. *)
Lemma post_with_optional_retry_contract_witness :
  exists (retried again token_request : Event),
    trace (snd (_post_with_optional_retry Sample.cfg Sample.lib Sample.flaky_host
                  Sample.upload_url Sample.upload_files 180 true
                  Sample.st_upload))
    = [ again; EvSleep 2; retried; token_request;
        post_request Sample.upload_url Sample.upload_files 180 Sample.st_upload ]
    /\ is_get token_request = true
    /\ is_post_with_token Sample.upload_url Sample.upload_files 180 (JStr "tok2") retried
    /\ is_post_to Sample.upload_url Sample.upload_files 180 again.
Proof.
  destruct (post_with_optional_retry_contract
              Sample.cfg Sample.lib Sample.flaky_host Sample.upload_url
              Sample.upload_files 180 true Sample.st_upload
              Sample.forbidden_response)
    as (current & refresh & backoff & Htrace & _ & Hrefresh & _ & Hbackoff & _).
  - vm_compute. reflexivity.
  - destruct (Hrefresh eq_refl) as (_ & _ & Htoken).
    destruct (Htoken (JStr "tok2")) as (retried & -> & Hretried & Hcurrent & _).
    { vm_compute. reflexivity. }
    assert (current = Sample.unavailable_response) as ->.
    { apply Hcurrent.
      destruct Hretried as (sh & data & hdrs & -> & _). reflexivity. }
    destruct (Hbackoff eq_refl) as (again & -> & Hagain & _).
    exists retried, again. eexists.
    split; [rewrite Htrace; reflexivity |].
    split; [reflexivity |]. split; [exact Hretried | exact Hagain].
Defined.

(** * The further properties at work on the sample hosts *)

(** [get_csrf_non_object_body] on a host whose token endpoint serves a JSON list. *)
Lemma get_csrf_non_object_body_witness :
  fst (_get_csrf Sample.cfg Sample.lib Sample.list_token_host 20 Sample.st0)
  = Raise (AttributeError "'list' object has no attribute 'get'").
Proof.
  apply (get_csrf_non_object_body Sample.cfg Sample.lib Sample.list_token_host
           20 Sample.st0 Sample.list_response (JArr [JStr "tok"])).
  - reflexivity.
  - reflexivity.
  - reflexivity.
  - intros d. discriminate.
Defined.

(** [get_csrf_network_error] on a host whose token endpoint cannot be reached. *)
Lemma get_csrf_network_error_witness :
  fst (_get_csrf Sample.cfg Sample.lib Sample.no_token_host 20 Sample.st0)
  = Raise (RequestException "ConnectTimeout" "connect timed out").
Proof.
  rewrite (get_csrf_network_error Sample.cfg Sample.lib Sample.no_token_host
             20 Sample.st0 "ConnectTimeout" "connect timed out");
    reflexivity.
Defined.

(** [post_network_error_not_retried] on a host whose upload endpoint cannot be reached. *)
Lemma post_network_error_not_retried_witness :
  fst (_post_with_optional_retry Sample.cfg Sample.lib Sample.no_upload_host
         Sample.upload_url Sample.upload_files 180 true Sample.st_upload)
  = Raise (RequestException "ConnectTimeout" "connect timed out").
Proof.
  rewrite (post_network_error_not_retried Sample.cfg Sample.lib
             Sample.no_upload_host Sample.upload_url Sample.upload_files 180
             true Sample.st_upload "ConnectTimeout" "connect timed out");
    reflexivity.
Defined.

(** [analyze_track_upload_first_post] on a host that hands out the token "tok". *)
Lemma analyze_track_upload_first_post_witness :
  session_headers Sample.st_token !! "X-CSRFToken" = Some (JStr "tok")
  /\ exists later,
       trace (snd (analyze_track_upload Sample.cfg Sample.lib Sample.pending_host
                     Sample.audio "a.mp3" true 180 true Sample.st0))
       = (later
            ++ [ EvPost "https://mixanalytic.com/upload"
                   (session_headers Sample.st_token)
                   {[ "file" := mkFilePart "a.mp3" Sample.audio "audio/mpeg" ]}
                   (upload_data (JStr "tok") true)
                   (_browser_like_post_headers Sample.cfg (JStr "tok")) 180;
                 csrf_request Sample.cfg 20 (snd (_new_session Sample.lib Sample.st0)) ]
            ++ [])%list.
Proof.
  destruct (analyze_track_upload_first_post
              Sample.cfg Sample.lib Sample.pending_host Sample.audio "a.mp3"
              true 180 true Sample.st0 Sample.st_token (JStr "tok"))
    as (Hfirst & Hsession & _).
  - vm_compute. reflexivity.
  - split; [exact Hsession | exact Hfirst].
Defined.

(** [analyze_track_token_failure] on a host whose token endpoint answers 503: no POST is sent. *)
Lemma analyze_track_token_failure_witness :
  fst (analyze_track Sample.cfg Sample.lib Sample.failed_token_host 5
         Sample.audio "a.mp3" false 180 true Sample.st0)
  = Raise (HTTPError "503 Server Error:  for url: ")
  /\ count is_post
       (trace (snd (analyze_track Sample.cfg Sample.lib Sample.failed_token_host 5
                      Sample.audio "a.mp3" false 180 true Sample.st0))) = 0%nat.
Proof.
  destruct (analyze_track_token_failure
              Sample.cfg Sample.lib Sample.failed_token_host 5 Sample.audio
              "a.mp3" false 180 true Sample.st0
              (snd (_get_csrf Sample.cfg Sample.lib Sample.failed_token_host 20
                      (snd (_new_session Sample.lib Sample.st0))))
              (HTTPError "503 Server Error:  for url: "))
    as [Hrun Htrace].
  - vm_compute. reflexivity.
  - rewrite Hrun. split; [reflexivity | vm_compute; reflexivity].
Defined.

(** [analyze_track_upload_failed] on a host that answers the upload with
    a 500 whose text is not ASCII. *)
Lemma analyze_track_upload_failed_witness :
  fst (analyze_track Sample.cfg Sample.lib Sample.accented_error_host 5
         Sample.audio "a.mp3" false 180 true Sample.st0)
  = Raise (RuntimeError "Upload failed (500): Erreur : réessayez…").
Proof.
  destruct (analyze_track_upload_failed
              Sample.cfg Sample.lib Sample.accented_error_host 5 Sample.audio
              "a.mp3" false 180 true Sample.st0
              (snd (analyze_track_upload Sample.cfg Sample.lib
                      Sample.accented_error_host
                      Sample.audio "a.mp3" false 180 true Sample.st0))
              Sample.accented_error_response)
    as [Hrun _].
  - vm_compute. reflexivity.
  - discriminate.
  - rewrite Hrun. vm_compute. reflexivity.
Defined.


(** [poll_json_results_no_time] with a timeout of zero: the state is
    untouched. *)
Lemma poll_json_results_no_time_witness :
  _poll_json_results Sample.cfg Sample.lib Sample.polled_host 1
                     (JStr "abc") 0 Sample.st0
  = (Ok JNull, Sample.st0).
Proof.
  apply (poll_json_results_no_time Sample.cfg Sample.lib Sample.polled_host
           0 (JStr "abc") 0 Sample.st0).
  lia.
Defined.

(** [poll_loop_backoff] on a host whose results never appear: a 404, 3
    seconds of sleep, and the next poll. *)
Lemma poll_loop_backoff_witness :
  exists later,
    trace (snd (poll_loop Sample.pending_host 2 Sample.results_url_abc 0 180
                          Sample.st0))
    = (later ++ [EvGet Sample.results_url_abc ∅ None 15; EvSleep 3;
                 EvGet Sample.results_url_abc ∅ None 15])%list.
Proof.
  destruct (poll_loop_backoff Sample.pending_host 0 Sample.results_url_abc 0 180
              Sample.st0 Sample.not_found_response)
    as (_ & _ & Hnext).
  - vm_compute. reflexivity.
  - reflexivity.
  - left. discriminate.
  - apply Hnext. vm_compute. reflexivity.
Defined.

(** [analyze_track_poll_falsy_json] on a host whose results URL serves an empty object. *)
Lemma analyze_track_poll_falsy_json_witness :
  analyze_track_poll Sample.cfg Sample.lib Sample.empty_object_host 1
                     (JStr "abc") "a.mp3" 180 Sample.st0
  = (Ok (_visuals_fallback Sample.cfg Sample.lib (JStr "abc") "a.mp3"),
     mkState [EvGet Sample.results_url_abc ∅ None 15] 1 ∅ ∅ ∅).
Proof.
  apply (analyze_track_poll_falsy_json
           Sample.cfg Sample.lib Sample.empty_object_host 0 (JStr "abc") "a.mp3"
           180 Sample.st0 Sample.empty_polled_response (Sample.obj [])).
  - lia.
  - reflexivity.
  - reflexivity.
  - vm_compute. reflexivity.
  - reflexivity.
  - reflexivity.
Defined.

(** [analyze_track_poll_non_object] on a host whose results URL serves a JSON list. *)
Lemma analyze_track_poll_non_object_witness :
  fst (analyze_track_poll Sample.cfg Sample.lib Sample.list_results_host 1
         (JStr "abc") "a.mp3" 180 Sample.st0)
  = Raise (AttributeError "'list' object has no attribute 'setdefault'").
Proof.
  rewrite (analyze_track_poll_non_object
             Sample.cfg Sample.lib Sample.list_results_host 1 (JStr "abc")
             "a.mp3" 180 Sample.st0
             (mkState [EvGet Sample.results_url_abc ∅ None 15] 1 ∅ ∅ ∅)
             (JArr [JStr "tok"])).
  - reflexivity.
  - vm_compute. reflexivity.
  - reflexivity.
  - intros d. discriminate.
Defined.

(** [analyze_track_poll_result_keys] on a host whose results are there at the first poll. *)
Lemma analyze_track_poll_result_keys_witness :
  exists m : dict,
    fst (analyze_track_poll Sample.cfg Sample.lib Sample.polled_host 1
           (JStr "abc") "a.mp3" 180 Sample.st0) = Ok (JObj m)
    /\ is_Some (m !! "file_id") /\ is_Some (m !! "filename").
Proof.
  destruct (analyze_track_poll_result_keys
              Sample.cfg Sample.lib Sample.polled_host 1 (JStr "abc") "a.mp3"
              180 Sample.st0
              (mkState [EvGet Sample.results_url_abc ∅ None 15] 1 ∅ ∅ ∅)
              (JObj (with_job_defaults (JStr "abc") "a.mp3"
                                       (list_to_map [("tempo", JInt 120)]))))
    as (m & Hm & Hkeys).
  - vm_compute. reflexivity.
  - exists m. split; [| exact Hkeys].
    rewrite <- Hm. vm_compute. reflexivity.
Defined.

(** [poll_json_results_result] on a host whose results never appear, with a timeout of one second. *)
Lemma poll_json_results_result_witness :
  1000 * 1 <= now (snd (_poll_json_results Sample.cfg Sample.lib Sample.pending_host
                          3 (JStr "abc") 1 Sample.st0)) - 0.
Proof.
  destruct (poll_json_results_result
              Sample.cfg Sample.lib Sample.pending_host 3 (JStr "abc") 1
              Sample.st0
              (snd (_poll_json_results Sample.cfg Sample.lib Sample.pending_host
                      3 (JStr "abc") 1 Sample.st0))
              JNull)
    as [[_ Hlate] | (r & Hr & _ & H200 & _)].
  - vm_compute. reflexivity.
  - exact Hlate.
  - vm_compute in Hr. injection Hr as <-. discriminate H200.
Defined.

(** Lengths and slices count characters, not bytes. *)
Example py_slices_count_characters :
  py_len "réessayez…" = 10%nat
  /\ String.length "réessayez…" = 13%nat
  /\ py_prefix 2 "réessayez…" = "ré"
  /\ py_prefix 10 "réessayez…" = "réessayez…".
Proof. repeat split; vm_compute; reflexivity. Qed.

(** Cached results that hold a NaN cannot be rendered: the handler
    answers 500, though the client returned them. *)
Example analyze_nan_results :
  fst (analyze_track Sample.cfg Sample.lib Sample.nan_host 5 Sample.audio
                     "a.mp3" false 180 true Sample.st0)
  = Ok (Sample.obj [("results", Sample.obj [("tempo", JFloat S754_nan)])])
  /\ fst (analyze Sample.cfg Sample.lib Sample.nan_host 5 Sample.audio
                  (Some "a.mp3") false 180 Sample.st0)
     = Ok (HTTPException 500
             "ValueError: Out of range float values are not JSON compliant").
Proof. split; vm_compute; reflexivity. Qed.

(** Nor can cached results that hold a surrogate. *)
Example analyze_surrogate_results :
  fst (analyze Sample.cfg Sample.lib Sample.surrogate_host 5 Sample.audio
               (Some "a.mp3") false 180 Sample.st0)
  = Ok (HTTPException 500
          "UnicodeEncodeError: 'utf-8' codec can't encode character: surrogates not allowed").
Proof. vm_compute. reflexivity. Qed.

(** A poll that fails to connect after an earlier poll was answered: the
    call raises, and that poll is its last event. *)
Example analyze_track_later_poll_network_error :
  let run := analyze_track Sample.cfg Sample.lib Sample.lost_host 5 Sample.audio
                           "a.mp3" false 180 true Sample.st0 in
  fst run = Raise (RequestException "ConnectTimeout" "connect timed out")
  /\ map event_kind (trace (snd run)) = map event_kind
       [EvGet "" ∅ None 0; EvSleep 0; EvGet "" ∅ None 0;
        EvPost "" ∅ ∅ ∅ ∅ 0; EvGet "" ∅ None 0].
Proof. split; vm_compute; reflexivity. Qed.
